(** * yandex_disabler: the executable-blocking core

    A shallow embedding of the core of [yandex_disabler.py]: the name
    validator, the IFEO registry blocker ([RegistryBlocker]) and the process
    classifier ([ProcessKiller._is_yandex_browser]), with the properties the
    specification states about them.

    Python strings are sequences of Unicode code points and are modelled as
    [list N].  The registry is a finite map from key paths to keys; the
    [winreg] calls are written in a state-and-exception monad over it. *)

From Stdlib Require Import ZArith NArith Bool List Ascii String.
From stdpp Require Import gmap strings list.

Open Scope N_scope.

(** ** Python strings *)

(** A Python [str]: its code points, in order. *)
Abbreviation pystr := (list N).

(** An ASCII literal of the source, as a Python string. *)
Definition cp (s : string) : pystr :=
  map N_of_ascii (list_ascii_of_string s).

Definition LF : N := 10.

Definition is_ascii_digit (c : N) : bool := (48 <=? c) && (c <=? 57).
Definition is_ascii_upper (c : N) : bool := (65 <=? c) && (c <=? 90).
Definition is_ascii_lower (c : N) : bool := (97 <=? c) && (c <=? 122).

(** [A-Za-z0-9_] *)
Definition is_ascii_word (c : N) : bool :=
  is_ascii_digit c || is_ascii_upper c || is_ascii_lower c || (c =? 95).

(** Lower case of one code point, on ASCII: [A-Z] go to [a-z]; every other
    code point is left alone. *)
Definition ascii_lower (c : N) : N :=
  if is_ascii_upper c then c + 32 else c.

(** The part of the Unicode character database the program consults through
    [re] and [str.lower].  It belongs to the Python runtime, not to the
    repository; both tables are only ever asked about code points outside
    ASCII (at or above 128).
    - [uni_isalnum c]: [str.isalnum] of the one-character string [c], which
      is how [\w] classifies a code point that is not ASCII;
    - [uni_lower c]: what [str.lower] writes for [c] (one code point for
      most letters, several for a few). *)
Record UnicodeData := {
  uni_isalnum : N -> bool;
  uni_lower : N -> pystr
}.

(** The tables cut down to the Russian alphabet (U+0410..U+044F): capital
    letters U+0410..U+042F lower to U+0430..U+044F, all sixty-four are
    alphanumeric, and every other code point outside ASCII is treated as a
    caseless non-letter.  Used for the concrete examples only. *)
Definition ucd_russian : UnicodeData := {|
  uni_isalnum := fun c => (1040 <=? c) && (c <=? 1103);
  uni_lower := fun c => if (1040 <=? c) && (c <=? 1071) then [c + 32] else [c]
|}.

(** [str.lower()] *)
Definition str_lower (ucd : UnicodeData) (s : pystr) : pystr :=
  flat_map (fun c => if c <? 128 then [ascii_lower c] else uni_lower ucd c) s.

(** [a == b] on two strings. *)
Definition str_eqb (a b : pystr) : bool := bool_decide (a = b).

(** [s.startswith(p)] *)
Fixpoint startswith (p s : pystr) : bool :=
  match p, s with
  | [], _ => true
  | _ :: _, [] => false
  | a :: p', b :: s' => (a =? b) && startswith p' s'
  end.

(** [sub in s]: [sub] occurs in [s] as a contiguous run. *)
Fixpoint str_contains (sub s : pystr) : bool :=
  startswith sub s ||
  match s with
  | [] => false
  | _ :: t => str_contains sub t
  end.

(** [sep.join(parts)] *)
Fixpoint str_join (sep : pystr) (parts : list pystr) : pystr :=
  match parts with
  | [] => []
  | [p] => p
  | p :: rest => p ++ sep ++ str_join sep rest
  end.

(** ** The fragment of [re] the validator uses *)

Module Re.

(** One position of the pattern: a literal or a character set. *)
Inductive atom :=
| Lit (l : N)
| Cls (p : N -> bool).

Inductive item :=
| Bol               (* ^ *)
| Eol               (* $ *)
| One (a : atom)
| Plus (a : atom).  (* a+ *)

(** Under [re.IGNORECASE] the subject character is lowered before it is
    compared.  The only code points whose lower case is an ASCII letter of
    this program's pattern ([e], [x]) are the ASCII capitals, so the ASCII
    mapping is the whole of it here; what a set answers on a code point
    outside ASCII is the set's own business. *)
Definition atom_matches (ignorecase : bool) (a : atom) (c : N) : bool :=
  let c' := if ignorecase then ascii_lower c else c in
  match a with
  | Lit l => c' =? (if ignorecase then ascii_lower l else l)
  | Cls p => p c'
  end.

(** [$] without [re.MULTILINE]: the end of the string, or just before a
    newline that is the last character. *)
Definition at_end (s : pystr) : bool :=
  match s with
  | [] => true
  | [c] => c =? LF
  | _ => false
  end.

(** One or more characters satisfying [p], then [k] on the rest; every
    split is tried. *)
Fixpoint many (p : N -> bool) (k : pystr -> bool) (s : pystr) : bool :=
  match s with
  | [] => false
  | c :: t => p c && (many p k t || k t)
  end.

(** Does the pattern match a prefix of [s]?  [start] records that no
    character has been consumed yet. *)
Fixpoint exec (ignorecase : bool) (pat : list item) (start : bool) (s : pystr) : bool :=
  match pat with
  | [] => true
  | Bol :: r => start && exec ignorecase r start s
  | Eol :: r => at_end s && exec ignorecase r start s
  | One a :: r =>
      match s with
      | [] => false
      | c :: t => atom_matches ignorecase a c && exec ignorecase r false t
      end
  | Plus a :: r => many (atom_matches ignorecase a) (exec ignorecase r false) s
  end.

(** [bool(re.match(pat, s, flags))] *)
Definition re_match (pat : list item) (s : pystr) (ignorecase : bool) : bool :=
  exec ignorecase pat true s.

End Re.

(** ** The validator *)

Section Validator.

Context (ucd : UnicodeData).

(** [\w] on a [str] pattern: ASCII letters, digits and the underscore, and
    every alphanumeric code point outside ASCII. *)
Definition word_char (c : N) : bool :=
  if c <? 128 then is_ascii_word c else uni_isalnum ucd c.

(** The set [[\w\-\.]]. *)
Definition name_char (c : N) : bool :=
  word_char c || (c =? 45) || (c =? 46).

(** [r'^[\w\-\.]+\.exe$'] *)
Definition EXE_NAME_RE : list Re.item :=
  [ Re.Bol; Re.Plus (Re.Cls name_char);
    Re.One (Re.Lit 46); Re.One (Re.Lit 101); Re.One (Re.Lit 120); Re.One (Re.Lit 101);
    Re.Eol ].

Definition _validate_exe_name (exe_name : pystr) : bool :=
  Re.re_match EXE_NAME_RE exe_name true.

End Validator.

(** The literal tail of the pattern, [\.exe$]. *)
Definition exe_tail : list Re.item :=
  [ Re.One (Re.Lit 46); Re.One (Re.Lit 101); Re.One (Re.Lit 120); Re.One (Re.Lit 101); Re.Eol ].

(** The pattern of the specification, [^[A-Za-z0-9_.-]+\.exe$] read
    case-insensitively: one or more characters of the ASCII set, then the
    four characters [.exe] in either case, and nothing after them. *)
Definition spec_name_char (c : N) : bool :=
  is_ascii_word c || (c =? 45) || (c =? 46).

Fixpoint spec_pattern (s : pystr) : bool :=
  match s with
  | [] => false
  | c :: t =>
      spec_name_char c &&
      (spec_pattern t || str_eqb (map ascii_lower t) (cp ".exe"))
  end.


(** ** Python values, exceptions and outcomes *)

(** The exceptions the modelled code can meet.  [FileNotFoundError] and
    [PermissionError] are subclasses of [OSError]; [OSError_other] stands for
    any other [OSError]. *)
Inductive exn :=
| FileNotFoundError
| PermissionError
| OSError_other
| AttributeError
| TypeError.

(** [isinstance(e, OSError)] *)
Definition is_OSError (e : exn) : bool :=
  match e with
  | FileNotFoundError | PermissionError | OSError_other => true
  | AttributeError | TypeError => false
  end.

(** The dynamically typed values that reach the core: registry data as
    [winreg] returns it, and the fields of a process snapshot. *)
Inductive PyVal :=
| PyNone
| PyStr (s : pystr)
| PyInt (z : Z)
| PyStrList (l : list pystr).

(** [bool(v)] *)
Definition truthy (v : PyVal) : bool :=
  match v with
  | PyNone => false
  | PyStr s => negb (bool_decide (s = []))
  | PyInt z => negb (z =? 0)%Z
  | PyStrList l => negb (bool_decide (l = []))
  end.

(** [v or d] *)
Definition py_or (v d : PyVal) : PyVal := if truthy v then v else d.

(** [v == s] for a string [s]: only an equal string is equal to it. *)
Definition py_eq_str (v : PyVal) (s : pystr) : bool :=
  match v with
  | PyStr t => str_eqb t s
  | _ => false
  end.

(** How a call ends: with a value or with an exception. *)
Inductive Outcome (A : Type) :=
| Ret (a : A)
| Raise (e : exn).
Arguments Ret {A} a.
Arguments Raise {A} e.

(** ** The registry *)

(** Registry data, with its type. *)
Inductive RegValue :=
| REG_SZ (s : pystr)
| REG_EXPAND_SZ (s : pystr)
| REG_DWORD (n : Z)
| REG_MULTI_SZ (l : list pystr).

(** The Python value [winreg.QueryValueEx] hands back for registry data. *)
Definition py_of_reg (v : RegValue) : PyVal :=
  match v with
  | REG_SZ s => PyStr s
  | REG_EXPAND_SZ s => PyStr s
  | REG_DWORD n => PyInt n
  | REG_MULTI_SZ l => PyStrList l
  end.

(** A key under [HKEY_LOCAL_MACHINE]: its named values, whether it has
    subkeys, and whether its access list lets a caller that is not elevated
    open it for reading. *)
Record RegKey := {
  key_values : gmap pystr RegValue;
  key_has_subkeys : bool;
  key_users_read : bool
}.

(** What the core acts on: the machine-wide hive, keyed by path; whether the
    process is elevated; and [sys.maxsize]. *)
Record World := {
  hklm : gmap pystr RegKey;
  elevated : bool;
  sys_maxsize : Z
}.

Definition set_hklm (h : gmap pystr RegKey) (w : World) : World :=
  {| hklm := h; elevated := elevated w; sys_maxsize := sys_maxsize w |}.

(** A computation of the core: it reads and writes the world and ends in an
    outcome. *)
Definition Py (A : Type) : Type := World -> Outcome A * World.

Definition ret {A} (a : A) : Py A := fun w => (Ret a, w).
Definition raise {A} (e : exn) : Py A := fun w => (Raise e, w).

Definition bind {A B} (m : Py A) (k : A -> Py B) : Py B :=
  fun w =>
    match m w with
    | (Ret a, w') => k a w'
    | (Raise e, w') => (Raise e, w')
    end.

Notation "'let*' x ':=' m 'in' k" := (bind m (fun x => k))
  (at level 10, x name, m at level 100, k at level 200).
Notation "m ';;' k" := (bind m (fun _ => k))
  (at level 100, k at level 200, right associativity).

(** [try: m  except ...: ...]: [handler e] is the body of the first clause
    that catches [e], or [None] when no clause does and [e] goes on. *)
Definition try_except {A} (m : Py A) (handler : exn -> option (Py A)) : Py A :=
  fun w =>
    match m w with
    | (Ret a, w') => (Ret a, w')
    | (Raise e, w') =>
        match handler e with
        | Some h => h w'
        | None => (Raise e, w')
        end
    end.

(** [try: m  finally: cleanup] *)
Definition try_finally {A} (m : Py A) (cleanup : Py unit) : Py A :=
  fun w =>
    match m w with
    | (r, w') =>
        match cleanup w' with
        | (Ret _, w'') => (r, w'')
        | (Raise e, w'') => (Raise e, w'')
        end
    end.

(** *** [winreg] *)

Module winreg.

Definition KEY_READ : Z := 0x20019.
Definition KEY_ALL_ACCESS : Z := 0xF003F.
Definition KEY_WOW64_64KEY : Z := 0x0100.
(** Two of the rights inside the masks above. *)
Definition KEY_QUERY_VALUE : Z := 0x0001.
Definition KEY_SET_VALUE : Z := 0x0002.

(** An open key: where it is and the access it was opened with. *)
Record HKEY := {
  h_path : pystr;
  h_access : Z
}.

Definition has_right (access right : Z) : bool :=
  negb (Z.land access right =? 0)%Z.

(** Does the key grant the access asked for?  An elevated caller gets
    everything; any other caller gets read access at most, and only where
    the key's access list allows it. *)
Definition granted (w : World) (k : RegKey) (access : Z) : bool :=
  elevated w || (negb (has_right access KEY_SET_VALUE) && key_users_read k).

(** A key as [CreateKeyEx] makes it: no values, no subkeys, readable. *)
Definition fresh_key : RegKey :=
  {| key_values := ∅; key_has_subkeys := false; key_users_read := true |}.

(** [winreg.OpenKey(HKEY_LOCAL_MACHINE, path, 0, access)] *)
Definition OpenKey (path : pystr) (access : Z) : Py HKEY :=
  fun w =>
    match hklm w !! path with
    | None => (Raise FileNotFoundError, w)
    | Some k =>
        if granted w k access
        then (Ret {| h_path := path; h_access := access |}, w)
        else (Raise PermissionError, w)
    end.

(** [winreg.CreateKeyEx(HKEY_LOCAL_MACHINE, path, 0, access)]: opens the
    key, creating it first when it is not there. *)
Definition CreateKeyEx (path : pystr) (access : Z) : Py HKEY :=
  fun w =>
    match hklm w !! path with
    | Some k =>
        if granted w k access
        then (Ret {| h_path := path; h_access := access |}, w)
        else (Raise PermissionError, w)
    | None =>
        if elevated w
        then (Ret {| h_path := path; h_access := access |},
              set_hklm (<[path := fresh_key]> (hklm w)) w)
        else (Raise PermissionError, w)
    end.

(** [winreg.SetValueEx(key, name, 0, type, data)], the data given with its
    type. *)
Definition SetValueEx (key : HKEY) (name : pystr) (data : RegValue) : Py unit :=
  fun w =>
    match hklm w !! h_path key with
    | None => (Raise OSError_other, w)
    | Some k =>
        if has_right (h_access key) KEY_SET_VALUE
        then (Ret tt,
              set_hklm (<[h_path key :=
                           {| key_values := <[name := data]> (key_values k);
                              key_has_subkeys := key_has_subkeys k;
                              key_users_read := key_users_read k |}]> (hklm w)) w)
        else (Raise PermissionError, w)
    end.

(** [winreg.QueryValueEx(key, name)], without the type it also returns;
    the caller drops it. *)
Definition QueryValueEx (key : HKEY) (name : pystr) : Py PyVal :=
  fun w =>
    match hklm w !! h_path key with
    | None => (Raise OSError_other, w)
    | Some k =>
        if has_right (h_access key) KEY_QUERY_VALUE
        then match key_values k !! name with
             | Some v => (Ret (py_of_reg v), w)
             | None => (Raise FileNotFoundError, w)
             end
        else (Raise PermissionError, w)
    end.

(** [winreg.DeleteValue(key, name)] *)
Definition DeleteValue (key : HKEY) (name : pystr) : Py unit :=
  fun w =>
    match hklm w !! h_path key with
    | None => (Raise OSError_other, w)
    | Some k =>
        if has_right (h_access key) KEY_SET_VALUE
        then match key_values k !! name with
             | Some _ =>
                 (Ret tt,
                  set_hklm (<[h_path key :=
                               {| key_values := delete name (key_values k);
                                  key_has_subkeys := key_has_subkeys k;
                                  key_users_read := key_users_read k |}]> (hklm w)) w)
             | None => (Raise FileNotFoundError, w)
             end
        else (Raise PermissionError, w)
    end.

(** [winreg.DeleteKey(HKEY_LOCAL_MACHINE, path)]: removes a key together
    with its values; a key that has subkeys is refused, and so is a caller
    that is not elevated (both with "access denied"). *)
Definition DeleteKey (path : pystr) : Py unit :=
  fun w =>
    match hklm w !! path with
    | None => (Raise FileNotFoundError, w)
    | Some k =>
        if elevated w && negb (key_has_subkeys k)
        then (Ret tt, set_hklm (delete path (hklm w)) w)
        else (Raise PermissionError, w)
    end.

(** [winreg.CloseKey(key)]: nothing of the world changes. *)
Definition CloseKey (key : HKEY) : Py unit := ret tt.

End winreg.

(** ** RegistryBlocker *)

(** [IFEO_PATH] *)
Definition IFEO_PATH : pystr :=
  cp "SOFTWARE\Microsoft\Windows NT\CurrentVersion\Image File Execution Options".

(** [BLOCKED_EXECUTABLES] *)
Definition BLOCKED_EXECUTABLES : list pystr :=
  [ cp "browser.exe"; cp "yandex.exe"; cp "YandexBrowser.exe";
    cp "yandexbrowser.exe"; cp "ya.exe" ].

(** [RegistryBlocker.BLOCKER_CMD] *)
Definition BLOCKER_CMD : pystr := cp "nul".

(** The name of the value the blocker writes. *)
Definition DEBUGGER : pystr := cp "Debugger".

(** The messages of [block_executable] and [unblock_executable], by the
    format string that makes them; each carries the executable name, the last
    of each group also the exception it reports. *)
Inductive Msg :=
| MsgInvalidName (exe_name : pystr)              (* "Недопустимое имя: {exe_name}" *)
| MsgBlocked (exe_name : pystr)                  (* "Заблокирован: {exe_name}" *)
| MsgNoAdminBlock (exe_name : pystr)             (* "Нет прав администратора для блокировки: {exe_name}" *)
| MsgBlockError (exe_name : pystr) (e : exn)     (* "Ошибка блокировки {exe_name}: {e}" *)
| MsgUnblocked (exe_name : pystr)                (* "Разблокирован: {exe_name}" *)
| MsgNoAdminUnblock (exe_name : pystr)           (* "Нет прав администратора для разблокировки: {exe_name}" *)
| MsgUnblockError (exe_name : pystr) (e : exn).  (* "Ошибка разблокировки {exe_name}: {e}" *)

(** The executable a message is about. *)
Definition msg_target (m : Msg) : pystr :=
  match m with
  | MsgInvalidName n | MsgBlocked n | MsgNoAdminBlock n | MsgBlockError n _
  | MsgUnblocked n | MsgNoAdminUnblock n | MsgUnblockError n _ => n
  end.

Section RegistryBlocker.

Context (ucd : UnicodeData).

Import winreg.

(** [RegistryBlocker._get_registry_access] *)
Definition _get_registry_access (write : bool) : Py Z :=
  fun w =>
    let access := if negb write then KEY_READ else KEY_ALL_ACCESS in
    let access := if (sys_maxsize w >? 2 ^ 32)%Z
                  then Z.lor access KEY_WOW64_64KEY else access in
    (Ret access, w).

(** [f"{IFEO_PATH}\\{exe_name}"] *)
Definition key_path (exe_name : pystr) : pystr :=
  IFEO_PATH ++ cp "\" ++ exe_name.

(** [RegistryBlocker.block_executable] *)
Definition block_executable (exe_name : pystr) : Py (bool * Msg) :=
  if negb (_validate_exe_name ucd exe_name)
  then ret (false, MsgInvalidName exe_name)
  else
    try_except
      (let* access := _get_registry_access true in
       let* key := CreateKeyEx (key_path exe_name) access in
       try_finally
         (SetValueEx key DEBUGGER (REG_SZ BLOCKER_CMD) ;;
          ret (true, MsgBlocked exe_name))
         (CloseKey key))
      (fun e =>
         match e with
         | PermissionError => Some (ret (false, MsgNoAdminBlock exe_name))
         | _ => Some (ret (false, MsgBlockError exe_name e))
         end).

(** [RegistryBlocker.unblock_executable] *)
Definition unblock_executable (exe_name : pystr) : Py (bool * Msg) :=
  if negb (_validate_exe_name ucd exe_name)
  then ret (false, MsgInvalidName exe_name)
  else
    try_except
      (try_except
         (let* access := _get_registry_access true in
          let* key := OpenKey (key_path exe_name) access in
          try_finally
            (try_except
               (DeleteValue key DEBUGGER)
               (fun e => match e with
                         | FileNotFoundError => Some (ret tt)
                         | _ => None
                         end))
            (CloseKey key))
         (fun e => match e with
                   | FileNotFoundError => Some (ret tt)
                   | _ => None
                   end) ;;
       try_except
         (DeleteKey (key_path exe_name))
         (fun e => if is_OSError e then Some (ret tt) else None) ;;
       ret (true, MsgUnblocked exe_name))
      (fun e =>
         match e with
         | PermissionError => Some (ret (false, MsgNoAdminUnblock exe_name))
         | _ => Some (ret (false, MsgUnblockError exe_name e))
         end).

(** [RegistryBlocker.is_blocked] *)
Definition is_blocked (exe_name : pystr) : Py bool :=
  if negb (_validate_exe_name ucd exe_name)
  then ret false
  else
    try_except
      (let* access := _get_registry_access false in
       let* key := OpenKey (key_path exe_name) access in
       try_finally
         (try_except
            (let* value := QueryValueEx key DEBUGGER in
             ret (py_eq_str value BLOCKER_CMD))
            (fun e => match e with
                      | FileNotFoundError => Some (ret false)
                      | _ => None
                      end))
         (CloseKey key))
      (fun e => Some (ret false)).

(** The loop shared by [block_all] and [unblock_all]: [all_success] and
    [messages] are the two variables it carries. *)
Fixpoint for_each (op : pystr -> Py (bool * Msg)) (executables : list pystr)
    (all_success : bool) (messages : list Msg) : Py (bool * list Msg) :=
  match executables with
  | [] => ret (all_success, messages)
  | exe :: rest =>
      let* r := op exe in
      let messages := messages ++ [snd r] in
      let all_success := if negb (fst r) then false else all_success in
      for_each op rest all_success messages
  end.

(** [RegistryBlocker.block_all] *)
Definition block_all (executables : list pystr) : Py (bool * list Msg) :=
  for_each block_executable executables true [].

(** [RegistryBlocker.unblock_all] *)
Definition unblock_all (executables : list pystr) : Py (bool * list Msg) :=
  for_each unblock_executable executables true [].

(** [RegistryBlocker.get_status]: the dictionary is filled in list order,
    a later entry for the same name replacing the earlier one. *)
Fixpoint status_loop (executables : list pystr) (d : gmap pystr bool) : Py (gmap pystr bool) :=
  match executables with
  | [] => ret d
  | exe :: rest =>
      let* b := is_blocked exe in
      status_loop rest (<[exe := b]> d)
  end.

Definition get_status (executables : list pystr) : Py (gmap pystr bool) :=
  status_loop executables ∅.

(** [RegistryBlocker.is_any_blocked]: [any] stops at the first true. *)
Fixpoint is_any_blocked (executables : list pystr) : Py bool :=
  match executables with
  | [] => ret false
  | exe :: rest =>
      let* b := is_blocked exe in
      if b then ret true else is_any_blocked rest
  end.

(** [RegistryBlocker.get_blocked_count]: [sum] over a generator of ones. *)
Fixpoint count_loop (executables : list pystr) (total : Z) : Py Z :=
  match executables with
  | [] => ret total
  | exe :: rest =>
      let* b := is_blocked exe in
      count_loop rest (if b then total + 1 else total)%Z
  end.

Definition get_blocked_count (executables : list pystr) : Py Z :=
  count_loop executables 0%Z.

End RegistryBlocker.


(** ** ProcessKiller: the classifier *)

(** Sequencing of calls that touch no state. *)
Definition obind {A B} (m : Outcome A) (k : A -> Outcome B) : Outcome B :=
  match m with
  | Ret a => k a
  | Raise e => Raise e
  end.

Notation "'let?' x ':=' m 'in' k" := (obind m (fun x => k))
  (at level 10, x name, m at level 100, k at level 200).

(** [ProcessKiller.YANDEX_INDICATORS] *)
Definition YANDEX_INDICATORS : list pystr :=
  [ cp "yandex"; cp "yabrowser"; cp "yandexbrowser" ].

(** The name the classifier compares the declared name with. *)
Definition HOST_NAME : pystr := cp "browser.exe".

(** [for indicator in indicators: if indicator in s: return True], the
    value being false when the loop runs out. *)
Fixpoint any_indicator_in (indicators : list pystr) (s : pystr) : bool :=
  match indicators with
  | [] => false
  | indicator :: rest =>
      if str_contains indicator s then true else any_indicator_in rest s
  end.

Section ProcessKiller.

Context (ucd : UnicodeData).

(** [d.get(key)] on the snapshot dictionary: [None] for a missing key. *)
Definition dict_get (d : gmap string PyVal) (key : string) : PyVal :=
  default PyNone (d !! key).

(** [v.lower()]: a method of strings only. *)
Definition lower_method (v : PyVal) : Outcome pystr :=
  match v with
  | PyStr s => Ret (str_lower ucd s)
  | _ => Raise AttributeError
  end.

(** [' '.join(v)]: [v] has to be an iterable of strings; a string is one,
    of its characters. *)
Definition join_method (sep : pystr) (v : PyVal) : Outcome pystr :=
  match v with
  | PyStrList l => Ret (str_join sep l)
  | PyStr s => Ret (str_join sep (map (fun c => [c]) s))
  | PyNone | PyInt _ => Raise TypeError
  end.

(** [ProcessKiller._is_yandex_browser] *)
Definition _is_yandex_browser (proc_info : gmap string PyVal) : Outcome bool :=
  let? name := lower_method (py_or (dict_get proc_info "name") (PyStr [])) in
  let? exe := lower_method (py_or (dict_get proc_info "exe") (PyStr [])) in
  let cmdline := py_or (dict_get proc_info "cmdline") (PyStrList []) in
  if any_indicator_in YANDEX_INDICATORS exe then Ret true
  else if str_eqb name HOST_NAME then
    let? joined := join_method (cp " ") cmdline in
    let cmdline_str := str_lower ucd joined in
    if any_indicator_in YANDEX_INDICATORS cmdline_str then Ret true
    else Ret false
  else Ret false.

End ProcessKiller.

(** One process of the snapshot, as the enumeration reports it: each field is
    there or is [None]. *)
Record ProcessHandle := {
  ph_pid : Z;
  ph_name : option pystr;
  ph_exe : option pystr;
  ph_cmdline : option (list pystr)
}.

Definition py_of_opt {A} (f : A -> PyVal) (o : option A) : PyVal :=
  match o with
  | Some a => f a
  | None => PyNone
  end.

(** The dictionary [proc.info] for a process. *)
Definition proc_info_of (h : ProcessHandle) : gmap string PyVal :=
  <["pid" := PyInt (ph_pid h)]>
  (<["name" := py_of_opt PyStr (ph_name h)]>
  (<["exe" := py_of_opt PyStr (ph_exe h)]>
  (<["cmdline" := py_of_opt PyStrList (ph_cmdline h)]> ∅)))%string.


(** ** What the operations leave behind *)

(** A key with one named value set, the rest as it was. *)
Definition key_with_value (k : RegKey) (name : pystr) (data : RegValue) : RegKey :=
  {| key_values := <[name := data]> (key_values k);
     key_has_subkeys := key_has_subkeys k;
     key_users_read := key_users_read k |}.

(** A key with one named value removed, the rest as it was. *)
Definition key_without_value (k : RegKey) (name : pystr) : RegKey :=
  {| key_values := delete name (key_values k);
     key_has_subkeys := key_has_subkeys k;
     key_users_read := key_users_read k |}.

(** The world after a successful [block_executable]: the key of the name is
    there (made fresh when it was not) and its [Debugger] value is the
    marker. *)
Definition with_marker (exe_name : pystr) (w : World) : World :=
  set_hklm
    (<[key_path exe_name :=
        key_with_value (default winreg.fresh_key (hklm w !! key_path exe_name))
          DEBUGGER (REG_SZ BLOCKER_CMD)]> (hklm w)) w.

(** The world after a successful [unblock_executable] on a key that is
    there: the [Debugger] value is gone, and so is the key unless it has
    subkeys. *)
Definition without_marker (exe_name : pystr) (k : RegKey) (w : World) : World :=
  if key_has_subkeys k
  then set_hklm (<[key_path exe_name := key_without_value k DEBUGGER]> (hklm w)) w
  else set_hklm (delete (key_path exe_name) (hklm w)) w.

(** The marker is readable and in place: the key of the name is there, the
    caller may open it for reading, and its [Debugger] value is the string
    [nul]. *)
Definition marker_active (exe_name : pystr) (w : World) : bool :=
  match hklm w !! key_path exe_name with
  | None => false
  | Some k =>
      (elevated w || key_users_read k) &&
      match key_values k !! DEBUGGER with
      | None => false
      | Some v => py_eq_str (py_of_reg v) BLOCKER_CMD
      end
  end.

(** The individual calls behind a batch: [attempts op targets w results w']
    says that [op] was called on every target, in list order, each call
    starting in the world the one before it left, that the calls returned
    [results], and that the last one left [w']. *)
Inductive attempts (op : pystr -> Py (bool * Msg)) :
    list pystr -> World -> list (bool * Msg) -> World -> Prop :=
| attempts_nil (w : World) : attempts op [] w [] w
| attempts_cons (exe : pystr) (rest : list pystr) (w w1 w2 : World)
    (r : bool * Msg) (results : list (bool * Msg)) :
    op exe w = (Ret r, w1) ->
    attempts op rest w1 results w2 ->
    attempts op (exe :: rest) w (r :: results) w2.

(** [is_blocked] as a function of the name, in a world that stays put. *)
Definition blocked_now (ucd : UnicodeData) (w : World) (exe_name : pystr) : bool :=
  _validate_exe_name ucd exe_name && marker_active exe_name w.

(** The three fields the classifier reads, a missing one read as empty. *)
Definition name_of (h : ProcessHandle) : pystr := default [] (ph_name h).
Definition exe_of (h : ProcessHandle) : pystr := default [] (ph_exe h).
Definition cmdline_of (h : ProcessHandle) : list pystr := default [] (ph_cmdline h).

(** The same process with every missing field filled in as empty. *)
Definition with_empty_fields (h : ProcessHandle) : ProcessHandle :=
  {| ph_pid := ph_pid h;
     ph_name := Some (name_of h);
     ph_exe := Some (exe_of h);
     ph_cmdline := Some (cmdline_of h) |}.

(** [s] has one of the indicators in it. *)
Definition has_indicator (s : pystr) : Prop :=
  exists indicator pre post,
    In indicator YANDEX_INDICATORS /\ s = pre ++ indicator ++ post.

(** The world after an elevated caller's [unblock_executable] of a valid
    name, whether or not its key was there. *)
Definition unblocked (exe_name : pystr) (w : World) : World :=
  match hklm w !! key_path exe_name with
  | None => w
  | Some k => without_marker exe_name k w
  end.

(** ** ProcessKiller: killing *)

(** How [proc.kill()] ends: the process is terminated, or one of the three
    [psutil] exceptions the loop passes over is raised, or another
    exception. *)
Inductive KillOutcome :=
| Killed
| NoSuchProcess
| AccessDenied
| ZombieProcess
| KillFailed (e : exn).

(** A [psutil.Process] as [process_iter] yields it: its pid, the dictionary
    [proc.info], and what killing it will do. *)
Record Process := {
  proc_pid : Z;
  proc_info : gmap string PyVal;
  proc_kill : KillOutcome
}.

(** What the code asks the system to terminate: one process, by its handle,
    or every process of an image name, through [taskkill /F /IM]. *)
Inductive KillRequest :=
| ByHandle (pid : Z)
| ByName (exe_name : pystr).

(** The system as [ProcessKiller] meets it: the processes [psutil] lists, or
    [None] when [psutil] cannot be imported; and what running [taskkill] on
    an image name gives, a return code or an exception. *)
Record Os := {
  psutil_processes : option (list Process);
  taskkill : pystr -> Outcome Z
}.

(** [d.get(key, default)] *)
Definition dict_get_default (d : gmap string PyVal) (key : string) (dflt : PyVal) : PyVal :=
  match d !! key with
  | Some v => v
  | None => dflt
  end.

Section Killing.

Context (ucd : UnicodeData).

(** The loop of [ProcessKiller.kill_all_yandex], carrying the list [killed]
    and the requests made so far.  An exception of the classifier or of
    [kill] ends the turn of that process and nothing more. *)
Fixpoint kill_loop (procs : list Process) (killed : list PyVal)
    (requests : list KillRequest) : list PyVal * list KillRequest :=
  match procs with
  | [] => (killed, requests)
  | proc :: rest =>
      match _is_yandex_browser ucd (proc_info proc) with
      | Ret true =>
          let requests := requests ++ [ByHandle (proc_pid proc)] in
          match proc_kill proc with
          | Killed =>
              let name := dict_get_default (proc_info proc) "name" (PyStr (cp "Unknown")) in
              kill_loop rest (killed ++ [name]) requests
          | NoSuchProcess | AccessDenied | ZombieProcess | KillFailed _ =>
              kill_loop rest killed requests
          end
      | Ret false | Raise _ => kill_loop rest killed requests
      end
  end.

(** The loop of [ProcessKiller._kill_with_taskkill]. *)
Fixpoint taskkill_loop (run : pystr -> Outcome Z) (names : list pystr)
    (killed : list PyVal) (requests : list KillRequest) : list PyVal * list KillRequest :=
  match names with
  | [] => (killed, requests)
  | exe_name :: rest =>
      let requests := requests ++ [ByName exe_name] in
      match run exe_name with
      | Ret returncode =>
          if (returncode =? 0)%Z
          then taskkill_loop run rest (killed ++ [PyStr exe_name]) requests
          else taskkill_loop run rest killed requests
      | Raise _ => taskkill_loop run rest killed requests
      end
  end.

(** [ProcessKiller._kill_with_taskkill] *)
Definition _kill_with_taskkill (os : Os) : list PyVal * list KillRequest :=
  taskkill_loop (taskkill os) BLOCKED_EXECUTABLES [] [].

(** [ProcessKiller.kill_all_yandex]: the list it returns, and the requests
    it made on the way. *)
Definition kill_all_yandex (os : Os) : list PyVal * list KillRequest :=
  match psutil_processes os with
  | None => _kill_with_taskkill os
  | Some procs => kill_loop procs [] []
  end.

(** The classifier says yes. *)
Definition matched (proc : Process) : bool :=
  match _is_yandex_browser ucd (proc_info proc) with
  | Ret true => true
  | _ => false
  end.

End Killing.

(** Killing it terminates it. *)
Definition kill_succeeds (proc : Process) : bool :=
  match proc_kill proc with
  | Killed => true
  | _ => false
  end.

(** [taskkill] ran and its return code is 0. *)
Definition taskkill_succeeds (run : pystr -> Outcome Z) (exe_name : pystr) : bool :=
  match run exe_name with
  | Ret returncode => (returncode =? 0)%Z
  | Raise _ => false
  end.

(** The entry of the snapshot for a process, with what killing it does. *)
Definition process_of (h : ProcessHandle) (kill : KillOutcome) : Process :=
  {| proc_pid := ph_pid h; proc_info := proc_info_of h; proc_kill := kill |}.

(** ** The window: YandexBlockerApp *)

(** [is_admin]: the answer of [IsUserAnAdmin], false when asking fails. *)
Definition is_admin : Py bool := fun w => (Ret (elevated w), w).

(** What the status label can show: the text it is created with, and the
    three states [_update_status] chooses from. *)
Inductive Indicator :=
| Checking         (* "Проверка..." *)
| FullyBlocked     (* "ЗАБЛОКИРОВАН", red *)
| PartlyBlocked    (* "ЧАСТИЧНО", yellow *)
| NotBlocked.      (* "НЕ ЗАБЛОКИРОВАН", grey *)

(** What [_update_status] sets: the lines of the list box, each an
    executable with its state; the status shown; whether each of the two
    buttons is enabled; and the two numbers of "blocked: n of m", absent
    while that label is still empty. *)
Record StatusView := {
  files_listbox : list (pystr * bool);
  status_var : Indicator;
  block_button_enabled : bool;
  unblock_button_enabled : bool;
  blocked_count_var : option (Z * Z)
}.

(** The keys of a dictionary in the order Python keeps them: each key where
    it was first inserted, a later insertion of the same key moving
    nothing. *)
Fixpoint first_occurrences (seen keys : list pystr) : list pystr :=
  match keys with
  | [] => []
  | k :: rest =>
      if bool_decide (k ∈ seen)
      then first_occurrences seen rest
      else k :: first_occurrences (k :: seen) rest
  end.

(** [d.items()] of a dictionary [d] whose keys were inserted in the order
    [inserted]. *)
Definition dict_items (inserted : list pystr) (d : gmap pystr bool) : list (pystr * bool) :=
  map (fun k => (k, default false (d !! k))) (first_occurrences [] inserted).

Section Window.

Context (ucd : UnicodeData).

(** The second half of [_update_status]: what it puts on the window, given
    the items of the status dictionary and [total_count]. *)
Definition show_status (items : list (pystr * bool)) (total_count : Z) : StatusView :=
  let blocked_count := Z.of_nat (length (List.filter snd items)) in
  if (blocked_count =? total_count)%Z then
    {| files_listbox := items;
       status_var := FullyBlocked;
       block_button_enabled := false;
       unblock_button_enabled := true;
       blocked_count_var := Some (blocked_count, total_count) |}
  else if (blocked_count >? 0)%Z then
    {| files_listbox := items;
       status_var := PartlyBlocked;
       block_button_enabled := true;
       unblock_button_enabled := true;
       blocked_count_var := Some (blocked_count, total_count) |}
  else
    {| files_listbox := items;
       status_var := NotBlocked;
       block_button_enabled := true;
       unblock_button_enabled := false;
       blocked_count_var := Some (blocked_count, total_count) |}.

(** [YandexBlockerApp._update_status], for the configured list
    [executables]: [blocked_count] counts the true values of the status
    dictionary, [total_count] is the length of the list. *)
Definition _update_status (executables : list pystr) : Py StatusView :=
  let* status := get_status ucd executables in
  ret (show_status (dict_items executables status) (Z.of_nat (length executables))).

(** The message boxes of the two handlers, by the call that opens them,
    with what their text is made of: the messages of the batch and, for
    blocking, the number of processes killed. *)
Inductive Dialog :=
| ErrorNeedsAdminToBlock
| InfoBlocked (messages : list Msg) (killed : nat)
| WarningPartlyBlocked (messages : list Msg) (killed : nat)
| ErrorNeedsAdminToUnblock
| InfoUnblocked (messages : list Msg)
| WarningPartlyUnblocked (messages : list Msg).

(** What a handler can change: the registry, what the window shows, the
    message boxes opened so far, and the kill requests made so far. *)
Record Desktop := {
  dk_world : World;
  dk_view : StatusView;
  dk_dialogs : list Dialog;
  dk_requests : list KillRequest
}.

(** [YandexBlockerApp._on_block], for the configured list [targets] on the
    system [os]. *)
Definition _on_block (targets : list pystr) (os : Os) (d : Desktop) : Outcome unit * Desktop :=
  match is_admin (dk_world d) with
  | (Raise e, w0) =>
      (Raise e, {| dk_world := w0; dk_view := dk_view d;
                   dk_dialogs := dk_dialogs d; dk_requests := dk_requests d |})
  | (Ret admin, w0) =>
      if negb admin then
        (Ret tt, {| dk_world := w0; dk_view := dk_view d;
                    dk_dialogs := dk_dialogs d ++ [ErrorNeedsAdminToBlock];
                    dk_requests := dk_requests d |})
      else
        let (killed, requests) := kill_all_yandex ucd os in
        match block_all ucd targets w0 with
        | (Raise e, w1) =>
            (Raise e, {| dk_world := w1; dk_view := dk_view d;
                         dk_dialogs := dk_dialogs d;
                         dk_requests := dk_requests d ++ requests |})
        | (Ret (success, messages), w1) =>
            match _update_status targets w1 with
            | (Raise e, w2) =>
                (Raise e, {| dk_world := w2; dk_view := dk_view d;
                             dk_dialogs := dk_dialogs d;
                             dk_requests := dk_requests d ++ requests |})
            | (Ret view, w2) =>
                (Ret tt,
                 {| dk_world := w2; dk_view := view;
                    dk_dialogs :=
                      dk_dialogs d ++
                      [if success
                       then InfoBlocked messages (length killed)
                       else WarningPartlyBlocked messages (length killed)];
                    dk_requests := dk_requests d ++ requests |})
            end
        end
  end.

(** [YandexBlockerApp._on_unblock] *)
Definition _on_unblock (targets : list pystr) (d : Desktop) : Outcome unit * Desktop :=
  match is_admin (dk_world d) with
  | (Raise e, w0) =>
      (Raise e, {| dk_world := w0; dk_view := dk_view d;
                   dk_dialogs := dk_dialogs d; dk_requests := dk_requests d |})
  | (Ret admin, w0) =>
      if negb admin then
        (Ret tt, {| dk_world := w0; dk_view := dk_view d;
                    dk_dialogs := dk_dialogs d ++ [ErrorNeedsAdminToUnblock];
                    dk_requests := dk_requests d |})
      else
        match unblock_all ucd targets w0 with
        | (Raise e, w1) =>
            (Raise e, {| dk_world := w1; dk_view := dk_view d;
                         dk_dialogs := dk_dialogs d; dk_requests := dk_requests d |})
        | (Ret (success, messages), w1) =>
            match _update_status targets w1 with
            | (Raise e, w2) =>
                (Raise e, {| dk_world := w2; dk_view := dk_view d;
                             dk_dialogs := dk_dialogs d; dk_requests := dk_requests d |})
            | (Ret view, w2) =>
                (Ret tt,
                 {| dk_world := w2; dk_view := view;
                    dk_dialogs :=
                      dk_dialogs d ++
                      [if success
                       then InfoUnblocked messages
                       else WarningPartlyUnblocked messages];
                    dk_requests := dk_requests d |})
            end
        end
  end.

End Window.

(** What the window shows as it is created, before the first
    [_update_status]. *)
Definition view_checking : StatusView :=
  {| files_listbox := [];
     status_var := Checking;
     block_button_enabled := true;
     unblock_button_enabled := true;
     blocked_count_var := None |}.

(** A desktop over a world, with nothing shown and nothing asked yet. *)
Definition desktop_over (w : World) : Desktop :=
  {| dk_world := w; dk_view := view_checking; dk_dialogs := []; dk_requests := [] |}.

(** ** Concrete data for the examples *)

(** [browser.exe] followed by a line feed. *)
Definition name_with_newline : pystr := cp "browser.exe" ++ [LF].

(** The Cyrillic name [яндекс.exe]. *)
Definition name_cyrillic : pystr := [1103; 1085; 1076; 1077; 1082; 1089] ++ cp ".exe".

(** A 64-bit machine with nothing under IFEO, seen by a caller that is not
    elevated, and by one that is. *)
Definition w_user : World :=
  {| hklm := ∅; elevated := false; sys_maxsize := 2 ^ 63 - 1 |}.

Definition w_admin : World :=
  {| hklm := ∅; elevated := true; sys_maxsize := 2 ^ 63 - 1 |}.

(** A key that holds the marker and nothing else. *)
Definition blocked_key : RegKey :=
  {| key_values := {[ DEBUGGER := REG_SZ BLOCKER_CMD ]};
     key_has_subkeys := false;
     key_users_read := true |}.

(** The elevated machine with the marker under the key [notepad], a name
    without [.exe]. *)
Definition w_notepad : World :=
  set_hklm {[ key_path (cp "notepad") := blocked_key ]} w_admin.

(** The machine that is not elevated, with [ya.exe] blocked. *)
Definition w_user_blocked : World :=
  set_hklm {[ key_path (cp "ya.exe") := blocked_key ]} w_user.

(** A key an administrator had set up before the tool was used: a debugger
    of their own for the program, and a flag beside it. *)
Definition debugged_key : RegKey :=
  {| key_values := {[ DEBUGGER := REG_SZ (cp "vsjitdebugger.exe");
                      cp "GlobalFlag" := REG_DWORD 512 ]};
     key_has_subkeys := false;
     key_users_read := true |}.

(** The elevated machine with that key for [ya.exe]. *)
Definition w_debugged : World :=
  set_hklm {[ key_path (cp "ya.exe") := debugged_key ]} w_admin.

(** A renderer of the browser: the shared host executable, its name in
    capitals as the file system has it, recognisable by its arguments only. *)
Definition renderer_process : ProcessHandle :=
  {| ph_pid := 4242;
     ph_name := Some (cp "Browser.EXE");
     ph_exe := None;
     ph_cmdline := Some [cp "--type=renderer"; cp "--YaBrowser-profile"] |}.

(** A process known by its path only. *)
Definition yandex_by_path : ProcessHandle :=
  {| ph_pid := 777;
     ph_name := None;
     ph_exe := Some (cp "C:\Users\u\AppData\Local\Yandex\YandexBrowser\Application\browser.exe");
     ph_cmdline := None |}.

(** A process the snapshot could say nothing about. *)
Definition opaque_process : ProcessHandle :=
  {| ph_pid := 4; ph_name := None; ph_exe := None; ph_cmdline := None |}.

(** Three processes: the browser known by its path, which can be killed;
    one of its renderers, which may not be touched; and a stranger. *)
Definition three_processes : list Process :=
  [ process_of yandex_by_path Killed;
    process_of renderer_process AccessDenied;
    process_of opaque_process Killed ].

(** A system where [psutil] lists those three and [taskkill] finds nothing
    to kill. *)
Definition os_three : Os :=
  {| psutil_processes := Some three_processes;
     taskkill := fun _ => Ret 128%Z |}.

(** A system without [psutil], where [taskkill] cannot be started for
    [yandex.exe], ends a process for [browser.exe] and finds none for the
    other names. *)
Definition os_without_psutil : Os :=
  {| psutil_processes := None;
     taskkill := fun exe_name =>
       if str_eqb exe_name (cp "yandex.exe") then Raise OSError_other
       else if str_eqb exe_name (cp "browser.exe") then Ret 0%Z
       else Ret 128%Z |}.


(** * Properties *)

(** ** Strings *)

(** Comparisons on code points, as propositions. *)
Ltac cmp_prop :=
  repeat match goal with
  | H : (_ && _) = true |- _ => apply andb_true_iff in H; destruct H
  | H : (_ || _) = true |- _ => apply orb_true_iff in H; destruct H
  | H : (_ && _) = false |- _ => apply andb_false_iff in H; destruct H
  | H : (_ || _) = false |- _ => apply orb_false_iff in H; destruct H
  | H : (_ <=? _) = true |- _ => apply N.leb_le in H
  | H : (_ <=? _) = false |- _ => apply N.leb_gt in H
  | H : (_ <? _) = true |- _ => apply N.ltb_lt in H
  | H : (_ <? _) = false |- _ => apply N.ltb_ge in H
  | H : (_ =? _) = true |- _ => apply N.eqb_eq in H
  | H : (_ =? _) = false |- _ => apply N.eqb_neq in H
  end.

(** Decide a boolean statement about one code point by cases on the
    comparisons in it. *)
Ltac cmp_cases :=
  repeat (match goal with
          | |- context [?a <=? ?b] => destruct (N.leb_spec a b)
          | |- context [?a <? ?b] => destruct (N.ltb_spec a b)
          | |- context [?a =? ?b] => destruct (N.eqb_spec a b)
          end; simpl in *);
  intros; try reflexivity; try lia.

Lemma str_eqb_eq (a b : pystr) : str_eqb a b = true <-> a = b.
Proof. unfold str_eqb. apply bool_decide_eq_true. Qed.

Lemma ascii_lower_idem (c : N) : ascii_lower (ascii_lower c) = ascii_lower c.
Proof.
  unfold ascii_lower, is_ascii_upper. cmp_cases.
Qed.

Lemma ascii_lower_ascii (c : N) : c < 128 -> ascii_lower c < 128.
Proof. unfold ascii_lower, is_ascii_upper. intros. cmp_cases. Qed.

Lemma spec_name_char_ascii (c : N) : spec_name_char c = true -> c < 128.
Proof.
  unfold spec_name_char, is_ascii_word, is_ascii_digit, is_ascii_upper, is_ascii_lower.
  intros H. cmp_prop; lia.
Qed.

Lemma startswith_spec (p s : pystr) :
  startswith p s = true <-> exists post, s = p ++ post.
Proof.
  revert s. induction p as [|a p IH]; intros s; simpl.
  - split; eauto.
  - destruct s as [|b s].
    + split; [discriminate | intros [post H]; discriminate].
    + rewrite andb_true_iff, N.eqb_eq, IH. split.
      * intros [-> [post ->]]. eauto.
      * intros [post H]. injection H as -> ->. eauto.
Qed.

(** [sub in s] holds exactly when [s] is [pre ++ sub ++ post]. *)
Lemma str_contains_spec (sub s : pystr) :
  str_contains sub s = true <-> exists pre post, s = pre ++ sub ++ post.
Proof.
  induction s as [|c s IH].
  - simpl. rewrite orb_false_r, startswith_spec. split.
    + intros [post H]. exists [], post. exact H.
    + intros [pre [post H]]. destruct pre; [eauto | discriminate].
  - cbn [str_contains]. rewrite orb_true_iff, startswith_spec, IH. split.
    + intros [[post H] | [pre [post H]]].
      * exists [], post. exact H.
      * exists (c :: pre), post. rewrite H. reflexivity.
    + intros [[|c' pre] [post H]].
      * left. eauto.
      * right. injection H as _ H. eauto.
Qed.

Lemma any_indicator_in_spec (indicators : list pystr) (s : pystr) :
  any_indicator_in indicators s = true <->
  exists indicator, In indicator indicators /\ str_contains indicator s = true.
Proof.
  induction indicators as [|i rest IH]; simpl.
  - split; [discriminate | intros [? [[] _]]].
  - destruct (str_contains i s) eqn:E.
    + split; eauto.
    + rewrite IH. split.
      * intros [x [Hin Hx]]. eauto.
      * intros [x [[<- | Hin] Hx]]; [congruence | eauto].
Qed.

Lemma str_lower_app (ucd : UnicodeData) (a b : pystr) :
  str_lower ucd (a ++ b) = str_lower ucd a ++ str_lower ucd b.
Proof. unfold str_lower. apply flat_map_app. Qed.

(** On a string of ASCII characters [str.lower] is the character-wise ASCII
    mapping, whatever the Unicode tables say. *)
Lemma str_lower_ascii (ucd : UnicodeData) (s : pystr) :
  Forall (fun c => c < 128) s -> str_lower ucd s = map ascii_lower s.
Proof.
  induction 1 as [|c s Hc _ IH]; [reflexivity|].
  unfold str_lower in *. simpl. rewrite IH.
  apply N.ltb_lt in Hc. rewrite Hc. reflexivity.
Qed.

(** ** The validator *)

Lemma many_spec (p : N -> bool) (k : pystr -> bool) (s : pystr) :
  Re.many p k s = true <->
  exists body rest, s = body ++ rest /\ body <> [] /\ forallb p body = true /\ k rest = true.
Proof.
  induction s as [|c s IH]; simpl.
  - split; [discriminate|]. intros [body [rest [H [Hne _]]]].
    destruct body; [congruence | discriminate].
  - rewrite andb_true_iff, orb_true_iff, IH. split.
    + intros [Hc [[body [rest [-> [Hne [Hb Hk]]]]] | Hk]].
      * exists (c :: body), rest. simpl. rewrite Hc, Hb. auto.
      * exists [c], s. simpl. rewrite Hc. auto.
    + intros [body [rest [H [Hne [Hb Hk]]]]].
      destruct body as [|c' body]; [congruence|].
      injection H as <- ->. simpl in Hb. apply andb_true_iff in Hb as [Hc Hb].
      split; [exact Hc|]. destruct body as [|c'' body].
      * right. exact Hk.
      * left. exists (c'' :: body), rest. auto.
Qed.

(** Lowering the subject character first changes nothing for the set of the
    pattern: a capital letter and its lower case are both in it. *)
Lemma name_char_lower (ucd : UnicodeData) (c : N) :
  name_char ucd (ascii_lower c) = name_char ucd c.
Proof.
  unfold ascii_lower. destruct (is_ascii_upper c) eqn:Hu; [|reflexivity].
  assert (Hc : 65 <= c /\ c <= 90) by (unfold is_ascii_upper in Hu; cmp_prop; lia).
  unfold name_char, word_char, is_ascii_word. rewrite Hu.
  replace (c + 32 <? 128) with true by (symmetry; apply N.ltb_lt; lia).
  replace (c <? 128) with true by (symmetry; apply N.ltb_lt; lia).
  replace (is_ascii_lower (c + 32)) with true
    by (symmetry; unfold is_ascii_lower; apply andb_true_iff; split; apply N.leb_le; lia).
  rewrite !orb_true_r. reflexivity.
Qed.

Lemma exe_tail_spec (s : pystr) :
  Re.exec true exe_tail false s = true <->
  exists sfx nl, s = sfx ++ nl /\ map ascii_lower sfx = cp ".exe" /\ (nl = [] \/ nl = [LF]).
Proof.
  split.
  - destruct s as [|a [|b [|c [|d [|e [|f s]]]]]]; simpl; try discriminate;
      rewrite ?andb_true_r; intros H; cmp_prop; try discriminate.
    + exists [a; b; c; d], []. simpl. repeat split; [|auto].
      repeat match goal with E : ascii_lower _ = _ |- _ => rewrite E; clear E end.
      reflexivity.
    + exists [a; b; c; d], [e]. simpl. repeat split; [|right; congruence].
      repeat match goal with E : ascii_lower _ = _ |- _ => rewrite E; clear E end.
      reflexivity.
  - intros [sfx [nl [-> [Hs Hnl]]]].
    destruct sfx as [|a [|b [|c [|d [|e sfx]]]]]; try discriminate.
    change (cp ".exe") with [46; 101; 120; 101] in Hs. simpl in Hs.
    injection Hs as Ha Hb Hc Hd.
    destruct Hnl as [-> | ->]; simpl; rewrite Ha, Hb, Hc, Hd; reflexivity.
Qed.

Lemma forallb_pointwise {A} (f g : A -> bool) (l : list A) :
  (forall x, f x = g x) -> forallb f l = forallb g l.
Proof.
  intros E. induction l as [|x l IH]; simpl; [reflexivity|].
  rewrite E, IH. reflexivity.
Qed.

(** What the validator accepts, in full. *)
Lemma validate_exe_name_spec (ucd : UnicodeData) (name : pystr) :
  _validate_exe_name ucd name = true <->
  exists body sfx nl,
    name = body ++ sfx ++ nl /\ body <> [] /\
    forallb (name_char ucd) body = true /\
    map ascii_lower sfx = cp ".exe" /\ (nl = [] \/ nl = [LF]).
Proof.
  unfold _validate_exe_name, Re.re_match, EXE_NAME_RE.
  cbn [Re.exec andb]. fold exe_tail. rewrite many_spec. split.
  - intros [body [rest [-> [Hne [Hb Hk]]]]].
    apply exe_tail_spec in Hk as [sfx [nl [-> [Hs Hnl]]]].
    exists body, sfx, nl. repeat split; auto.
    erewrite forallb_pointwise; [exact Hb|]. intros c. simpl. symmetry. apply name_char_lower.
  - intros [body [sfx [nl [-> [Hne [Hb [Hs Hnl]]]]]]].
    exists body, (sfx ++ nl). repeat split; auto.
    + erewrite forallb_pointwise; [exact Hb|]. intros c. simpl. apply name_char_lower.
    + apply exe_tail_spec. eauto.
Qed.

Lemma spec_pattern_spec (s : pystr) :
  spec_pattern s = true <->
  exists body sfx,
    s = body ++ sfx /\ body <> [] /\
    forallb spec_name_char body = true /\ map ascii_lower sfx = cp ".exe".
Proof.
  induction s as [|c s IH]; simpl.
  - split; [discriminate|]. intros [body [sfx [H [Hne _]]]].
    destruct body; [congruence | discriminate].
  - rewrite andb_true_iff, orb_true_iff, IH, str_eqb_eq. split.
    + intros [Hc [[body [sfx [-> [Hne [Hb Hs]]]]] | Hs]].
      * exists (c :: body), sfx. simpl. rewrite Hc, Hb. auto.
      * exists [c], s. simpl. rewrite Hc. auto.
    + intros [body [sfx [H [Hne [Hb Hs]]]]].
      destruct body as [|c' body]; [congruence|].
      injection H as <- ->. simpl in Hb. apply andb_true_iff in Hb as [Hc Hb].
      split; [exact Hc|]. destruct body as [|c'' body].
      * right. exact Hs.
      * left. exists (c'' :: body), sfx. auto.
Qed.

(** On ASCII the set of the code and the set of the specification agree. *)
Lemma name_char_ascii (ucd : UnicodeData) (c : N) :
  c < 128 -> name_char ucd c = spec_name_char c.
Proof.
  intros Hc. unfold name_char, word_char, spec_name_char.
  apply N.ltb_lt in Hc. rewrite Hc. reflexivity.
Qed.

Lemma spec_name_char_name_char (ucd : UnicodeData) (c : N) :
  spec_name_char c = true -> name_char ucd c = true.
Proof.
  intros H. rewrite name_char_ascii; [exact H|]. apply spec_name_char_ascii, H.
Qed.

(** The characters of [.exe], in either case, are in the set. *)
Lemma exe_suffix_chars (sfx : pystr) :
  map ascii_lower sfx = cp ".exe" -> Forall (fun c => spec_name_char c = true) sfx.
Proof.
  intros Hs. destruct sfx as [|a [|b [|c [|d [|e sfx]]]]]; try discriminate.
  change (cp ".exe") with [46; 101; 120; 101] in Hs. simpl in Hs.
  injection Hs as Ha Hb Hc Hd.
  repeat constructor;
    match goal with
    | |- spec_name_char ?x = true =>
        match goal with
        | E : ascii_lower x = _ |- _ =>
            revert E; clear;
            unfold spec_name_char, is_ascii_word, is_ascii_digit, is_ascii_lower,
              ascii_lower, is_ascii_upper;
            cmp_cases
        end
    end.
Qed.

(** With the tail [\.exe$] matched and no line feed at the very end, nothing
    follows the suffix. *)
Lemma no_newline_tail (body sfx nl : pystr) :
  last (body ++ sfx ++ nl) <> Some LF -> nl = [] \/ nl = [LF] -> nl = [].
Proof.
  intros Hlast [-> | ->]; [reflexivity|].
  exfalso. apply Hlast. rewrite !app_assoc. apply last_snoc.
Qed.

(** C2 (amended): for a name that does not end in a line feed, the validator
    accepts exactly the names made of one or more characters of the set
    [[\w\-\.]] -- ASCII letters, digits, [_], [-], [.], and the alphanumeric
    code points outside ASCII -- followed by [.exe] in either case.  So it
    accepts every name of the specification's ASCII pattern, rejects every
    name with an ASCII character outside [[A-Za-z0-9_.-]] (path separators,
    wildcards, blanks, [;]), and rejects every name without the suffix. *)
Theorem validate_exe_name_accepts (ucd : UnicodeData) (name : pystr) :
  last name <> Some LF ->
  (_validate_exe_name ucd name = true <->
   exists body sfx,
     name = body ++ sfx /\ body <> [] /\
     forallb (name_char ucd) body = true /\ map ascii_lower sfx = cp ".exe")
  /\ (spec_pattern name = true -> _validate_exe_name ucd name = true)
  /\ (forall c, In c name -> c < 128 -> spec_name_char c = false ->
      _validate_exe_name ucd name = false)
  /\ ((forall body sfx, name = body ++ sfx -> map ascii_lower sfx <> cp ".exe") ->
      _validate_exe_name ucd name = false).
Proof.
  intros Hlast.
  assert (Hiff : _validate_exe_name ucd name = true <->
    exists body sfx,
      name = body ++ sfx /\ body <> [] /\
      forallb (name_char ucd) body = true /\ map ascii_lower sfx = cp ".exe").
  { rewrite validate_exe_name_spec. split.
    - intros [body [sfx [nl [E [Hne [Hb [Hs Hnl]]]]]]].
      assert (nl = []) as -> by (rewrite E in Hlast; eapply no_newline_tail; eauto).
      rewrite app_nil_r in E. eauto 6.
    - intros [body [sfx [E [Hne [Hb Hs]]]]].
      exists body, sfx, []. rewrite app_nil_r. auto 6. }
  split; [exact Hiff|]. split; [|split].
  - intros Hspec. apply Hiff.
    apply spec_pattern_spec in Hspec as [body [sfx [E [Hne [Hb Hs]]]]].
    exists body, sfx. repeat split; auto.
    apply forallb_forall. intros c Hc.
    apply spec_name_char_name_char. eapply forallb_forall in Hb; eauto.
  - intros c Hin Hc Hout.
    apply not_true_is_false. intros Hv.
    apply Hiff in Hv as [body [sfx [-> [Hne [Hb Hs]]]]].
    apply in_app_or in Hin as [Hin | Hin].
    + eapply forallb_forall in Hb; eauto.
      rewrite name_char_ascii in Hb by exact Hc. congruence.
    + apply exe_suffix_chars in Hs. rewrite Forall_forall in Hs.
      apply list_elem_of_In in Hin. apply Hs in Hin. congruence.
  - intros Hno.
    apply not_true_is_false. intros Hv.
    apply Hiff in Hv as [body [sfx [E [_ [_ Hs]]]]].
    exfalso. eapply Hno; eauto.
Qed.

(** The hypothesis of C2 at [Yandex.Exe], which the validator accepts. *)
Lemma validate_exe_name_accepts_witness :
  last (cp "Yandex.Exe") <> Some LF /\
  _validate_exe_name ucd_russian (cp "Yandex.Exe") = true.
Proof.
  assert (H : last (cp "Yandex.Exe") <> Some LF) by (vm_compute; discriminate).
  split; [exact H|].
  apply (proj2 (proj1 (validate_exe_name_accepts ucd_russian (cp "Yandex.Exe") H))).
  exists (cp "Yandex"), (cp ".Exe"). vm_compute. repeat split. discriminate.
Defined.

(** C2 (as stated) fails: the validator accepts [browser.exe] followed by a
    line feed, and the Cyrillic [яндекс.exe]; neither is a name of the
    pattern [^[A-Za-z0-9_.-]+\.exe$]. *)
Lemma validate_exe_name_not_spec_pattern :
  (_validate_exe_name ucd_russian name_with_newline = true /\
   spec_pattern name_with_newline = false) /\
  (_validate_exe_name ucd_russian name_cyrillic = true /\
   spec_pattern name_cyrillic = false).
Proof. vm_compute. auto. Qed.

(** The two acceptances above do not depend on the example tables: the line
    feed is accepted under any tables, and a name is accepted whenever its
    characters outside ASCII are alphanumeric. *)
Lemma validate_exe_name_newline (ucd : UnicodeData) (name : pystr) :
  _validate_exe_name ucd name = true -> last name <> Some LF ->
  _validate_exe_name ucd (name ++ [LF]) = true.
Proof.
  rewrite !validate_exe_name_spec.
  intros [body [sfx [nl [E [Hne [Hb [Hs Hnl]]]]]]] Hlast.
  assert (nl = []) as -> by (rewrite E in Hlast; eapply no_newline_tail; eauto).
  exists body, sfx, [LF]. rewrite E, app_nil_r, <- app_assoc. auto 6.
Qed.

Lemma validate_exe_name_unicode (ucd : UnicodeData) (c : N) :
  128 <= c -> uni_isalnum ucd c = true -> _validate_exe_name ucd (c :: cp ".exe") = true.
Proof.
  intros Hc Ha. apply validate_exe_name_spec.
  exists [c], (cp ".exe"), []. split; [reflexivity|]. split; [discriminate|].
  split; [|auto].
  simpl. unfold name_char, word_char. apply N.ltb_ge in Hc. rewrite Hc, Ha. reflexivity.
Qed.

(** The validator on the names the specification lists. *)
Example validate_spec_names :
  map (_validate_exe_name ucd_russian)
    [cp "../evil.exe"; cp "cmd.exe; rm"; cp "noextension"; cp "browser.exe"; cp "Yandex.Exe"]
  = [false; false; false; true; true].
Proof. reflexivity. Qed.

(** ** The registry operations, one by one *)

#[local] Opaque key_path DEBUGGER BLOCKER_CMD.

Lemma set_hklm_same (w : World) : set_hklm (hklm w) w = w.
Proof. destruct w. reflexivity. Qed.

Lemma set_hklm_twice (h h' : gmap pystr RegKey) (w : World) :
  set_hklm h (set_hklm h' w) = set_hklm h w.
Proof. reflexivity. Qed.

(** The access mask carries the rights its caller asked for. *)
Lemma get_registry_access_run (write : bool) (w : World) :
  exists access,
    _get_registry_access write w = (Ret access, w) /\
    winreg.has_right access winreg.KEY_SET_VALUE = write /\
    winreg.has_right access winreg.KEY_QUERY_VALUE = true.
Proof.
  unfold _get_registry_access.
  destruct write; destruct (sys_maxsize w >? 2 ^ 32)%Z; eexists; split; try reflexivity;
    split; reflexivity.
Qed.

(** Unfold the monad and the [winreg] calls. *)
Ltac run :=
  unfold bind, ret, raise, try_except, try_finally,
    winreg.OpenKey, winreg.CreateKeyEx, winreg.SetValueEx, winreg.QueryValueEx,
    winreg.DeleteValue, winreg.DeleteKey, winreg.CloseKey, winreg.granted;
  cbn [winreg.h_path winreg.h_access hklm elevated sys_maxsize set_hklm
       key_values key_has_subkeys key_users_read
       fst snd negb andb orb is_OSError].

(** Run as far as the facts at hand allow. *)
Ltac run_with tac := repeat (progress (run; tac)).

Lemma block_executable_run (ucd : UnicodeData) (exe_name : pystr) (w : World) :
  _validate_exe_name ucd exe_name = true ->
  block_executable ucd exe_name w =
    if elevated w
    then (Ret (true, MsgBlocked exe_name), with_marker exe_name w)
    else (Ret (false, MsgNoAdminBlock exe_name), w).
Proof.
  intros Hv. unfold block_executable. rewrite Hv. cbn [negb].
  destruct (get_registry_access_run true w) as [access [Ha [Hset Hq]]].
  unfold try_except at 1. unfold bind at 1. rewrite Ha.
  unfold with_marker.
  destruct (hklm w !! key_path exe_name) as [k|] eqn:Hk; destruct (elevated w) eqn:He;
    run_with ltac:(rewrite ?Hk, ?He, ?Hset, ?lookup_insert_eq); try reflexivity.
  rewrite insert_insert_eq. reflexivity.
Qed.

Lemma key_without_absent_value (k : RegKey) (name : pystr) :
  key_values k !! name = None -> key_without_value k name = k.
Proof.
  intros H. destruct k as [vals sub rd]. unfold key_without_value. simpl in *.
  rewrite delete_id by exact H. reflexivity.
Qed.

Lemma unblock_executable_run (ucd : UnicodeData) (exe_name : pystr) (w : World) :
  _validate_exe_name ucd exe_name = true ->
  unblock_executable ucd exe_name w =
    match hklm w !! key_path exe_name with
    | None => (Ret (true, MsgUnblocked exe_name), w)
    | Some k =>
        if elevated w
        then (Ret (true, MsgUnblocked exe_name), without_marker exe_name k w)
        else (Ret (false, MsgNoAdminUnblock exe_name), w)
    end.
Proof.
  intros Hv. unfold unblock_executable. rewrite Hv. cbn [negb].
  destruct (get_registry_access_run true w) as [access [Ha [Hset Hq]]].
  unfold try_except at 1. unfold bind at 1. unfold try_except at 1.
  unfold bind at 1. rewrite Ha.
  unfold without_marker.
  destruct (hklm w !! key_path exe_name) as [k|] eqn:Hk.
  - destruct (elevated w) eqn:He.
    + destruct (key_values k !! DEBUGGER) as [v|] eqn:Hd;
        run_with ltac:(rewrite ?Hk, ?He, ?Hset, ?Hd, ?lookup_insert_eq);
        destruct (key_has_subkeys k) eqn:Hs; run; try reflexivity.
      * unfold key_without_value. rewrite Hs. reflexivity.
      * rewrite delete_insert_eq. reflexivity.
      * rewrite insert_id, set_hklm_same; [reflexivity|].
        rewrite Hk. f_equal. symmetry.
        apply key_without_absent_value, Hd.
    + run_with ltac:(rewrite ?Hk, ?He, ?Hset). reflexivity.
  - run_with ltac:(rewrite ?Hk). reflexivity.
Qed.

Lemma is_blocked_run (ucd : UnicodeData) (exe_name : pystr) (w : World) :
  is_blocked ucd exe_name w =
    (Ret (_validate_exe_name ucd exe_name && marker_active exe_name w), w).
Proof.
  unfold is_blocked, marker_active.
  destruct (_validate_exe_name ucd exe_name); cbn [negb andb]; [|reflexivity].
  destruct (get_registry_access_run false w) as [access [Ha [Hset Hq]]].
  unfold try_except at 1. unfold bind at 1. rewrite Ha.
  destruct (hklm w !! key_path exe_name) as [k|] eqn:Hk.
  - destruct (elevated w) eqn:He; destruct (key_users_read k) eqn:Hr;
      destruct (key_values k !! DEBUGGER) as [v|] eqn:Hd;
      run_with ltac:(rewrite ?Hk, ?He, ?Hset, ?Hq, ?Hr, ?Hd); reflexivity.
  - run_with ltac:(rewrite ?Hk). reflexivity.
Qed.

(** ** The marker after each operation *)

Lemma py_eq_str_refl (s : pystr) : py_eq_str (PyStr s) s = true.
Proof. simpl. apply str_eqb_eq. reflexivity. Qed.

Lemma marker_active_with_marker (exe_name : pystr) (w : World) :
  elevated w = true -> marker_active exe_name (with_marker exe_name w) = true.
Proof.
  intros He. unfold marker_active, with_marker.
  cbn [hklm elevated set_hklm]. rewrite lookup_insert_eq, He.
  unfold key_with_value. cbn [key_values orb andb]. rewrite lookup_insert_eq.
  apply py_eq_str_refl.
Qed.

Lemma marker_active_without_marker (exe_name : pystr) (k : RegKey) (w : World) :
  marker_active exe_name (without_marker exe_name k w) = false.
Proof.
  unfold marker_active, without_marker.
  destruct (key_has_subkeys k); cbn [hklm elevated set_hklm].
  - rewrite lookup_insert_eq. unfold key_without_value. cbn [key_values].
    rewrite lookup_delete_eq. apply andb_false_r.
  - rewrite lookup_delete_eq. reflexivity.
Qed.

Lemma marker_active_no_key (exe_name : pystr) (w : World) :
  hklm w !! key_path exe_name = None -> marker_active exe_name w = false.
Proof. intros H. unfold marker_active. rewrite H. reflexivity. Qed.

Lemma with_marker_twice (exe_name : pystr) (w : World) :
  with_marker exe_name (with_marker exe_name w) = with_marker exe_name w.
Proof.
  unfold with_marker. cbn [hklm elevated set_hklm sys_maxsize].
  rewrite lookup_insert_eq. cbn [default from_option id]. rewrite insert_insert_eq.
  unfold key_with_value. cbn [key_values key_has_subkeys key_users_read].
  rewrite insert_insert_eq. reflexivity.
Qed.

Lemma without_marker_lookup (exe_name : pystr) (k : RegKey) (w : World) :
  hklm (without_marker exe_name k w) !! key_path exe_name =
    if key_has_subkeys k then Some (key_without_value k DEBUGGER) else None.
Proof.
  unfold without_marker. destruct (key_has_subkeys k); cbn [hklm set_hklm].
  - apply lookup_insert_eq.
  - apply lookup_delete_eq.
Qed.

Lemma without_marker_twice (exe_name : pystr) (k : RegKey) (w : World) :
  key_has_subkeys k = true ->
  without_marker exe_name (key_without_value k DEBUGGER) (without_marker exe_name k w)
  = without_marker exe_name k w.
Proof.
  intros Hs. unfold without_marker. cbn [key_without_value key_has_subkeys].
  rewrite Hs. cbn [hklm elevated set_hklm sys_maxsize].
  rewrite insert_insert_eq.
  rewrite (key_without_absent_value (key_without_value k DEBUGGER)); [reflexivity|].
  cbn [key_without_value key_values]. apply lookup_delete_eq.
Qed.

(** ** block, unblock and is_blocked *)

(** C1: for a name the validator accepts, [block_executable] always returns;
    it succeeds whenever the caller is elevated, and after a successful call
    [is_blocked] returns true.  [unblock_executable] always returns; it
    succeeds whenever the caller is elevated, and after a successful call
    [is_blocked] returns false. *)
Theorem block_unblock_then_is_blocked (ucd : UnicodeData) (n : pystr) (w : World) :
  _validate_exe_name ucd n = true ->
  (exists ok msg w',
     block_executable ucd n w = (Ret (ok, msg), w') /\
     (elevated w = true -> ok = true) /\
     (ok = true -> is_blocked ucd n w' = (Ret true, w')))
  /\
  (exists ok msg w',
     unblock_executable ucd n w = (Ret (ok, msg), w') /\
     (elevated w = true -> ok = true) /\
     (ok = true -> is_blocked ucd n w' = (Ret false, w'))).
Proof.
  intros Hv. split.
  - rewrite block_executable_run by exact Hv.
    destruct (elevated w) eqn:He; do 3 eexists; (split; [reflexivity|]); split;
      try discriminate; try reflexivity.
    intros _. rewrite is_blocked_run, Hv, marker_active_with_marker by exact He.
    reflexivity.
  - rewrite unblock_executable_run by exact Hv.
    destruct (hklm w !! key_path n) as [k|] eqn:Hk; [destruct (elevated w) eqn:He|];
      do 3 eexists; (split; [reflexivity|]); split; try discriminate; try reflexivity.
    + intros _. rewrite is_blocked_run, Hv, marker_active_without_marker. reflexivity.
    + intros _. rewrite is_blocked_run, Hv, marker_active_no_key by exact Hk. reflexivity.
Qed.

(** The hypothesis of C1 at [ya.exe] on the elevated machine: both calls
    return. *)
Lemma block_unblock_then_is_blocked_witness :
  _validate_exe_name ucd_russian (cp "ya.exe") = true /\
  ((exists ok msg w',
      block_executable ucd_russian (cp "ya.exe") w_admin = (Ret (ok, msg), w') /\
      (elevated w_admin = true -> ok = true) /\
      (ok = true -> is_blocked ucd_russian (cp "ya.exe") w' = (Ret true, w')))
   /\
   (exists ok msg w',
      unblock_executable ucd_russian (cp "ya.exe") w_admin = (Ret (ok, msg), w') /\
      (elevated w_admin = true -> ok = true) /\
      (ok = true -> is_blocked ucd_russian (cp "ya.exe") w' = (Ret false, w')))).
Proof.
  assert (H : _validate_exe_name ucd_russian (cp "ya.exe") = true) by reflexivity.
  split; [exact H|].
  exact (block_unblock_then_is_blocked ucd_russian (cp "ya.exe") w_admin H).
Defined.

(** C4: for a name the validator accepts, a [block_executable] that
    succeeded succeeds again with the same message, leaves the world as the
    first call left it, and [is_blocked] is true; likewise a second
    [unblock_executable] succeeds, changes nothing, and [is_blocked] is
    false.  An elevated caller's first call does succeed. *)
Theorem block_unblock_idempotent (ucd : UnicodeData) (n : pystr) (w : World) :
  _validate_exe_name ucd n = true ->
  (forall msg w1,
     block_executable ucd n w = (Ret (true, msg), w1) ->
     block_executable ucd n w1 = (Ret (true, msg), w1) /\
     is_blocked ucd n w1 = (Ret true, w1))
  /\
  (forall msg w1,
     unblock_executable ucd n w = (Ret (true, msg), w1) ->
     unblock_executable ucd n w1 = (Ret (true, msg), w1) /\
     is_blocked ucd n w1 = (Ret false, w1))
  /\
  (elevated w = true ->
   (exists msg w1, block_executable ucd n w = (Ret (true, msg), w1)) /\
   (exists msg w1, unblock_executable ucd n w = (Ret (true, msg), w1))).
Proof.
  intros Hv. split; [|split].
  - intros msg w1. rewrite block_executable_run by exact Hv.
    destruct (elevated w) eqn:He; [|discriminate].
    intros [= <- <-]. split.
    + rewrite block_executable_run by exact Hv.
      unfold with_marker at 1. cbn [elevated set_hklm]. rewrite He.
      fold (with_marker n w). rewrite with_marker_twice. reflexivity.
    + rewrite is_blocked_run, Hv, marker_active_with_marker by exact He. reflexivity.
  - intros msg w1. rewrite unblock_executable_run by exact Hv.
    destruct (hklm w !! key_path n) as [k|] eqn:Hk.
    + destruct (elevated w) eqn:He; [|discriminate].
      intros [= <- <-]. split.
      * rewrite unblock_executable_run by exact Hv.
        rewrite without_marker_lookup.
        destruct (key_has_subkeys k) eqn:Hs; [|reflexivity].
        replace (elevated (without_marker n k w)) with true
          by (unfold without_marker; rewrite Hs; symmetry; exact He).
        rewrite without_marker_twice by exact Hs. reflexivity.
      * rewrite is_blocked_run, Hv, marker_active_without_marker. reflexivity.
    + intros [= <- <-]. split.
      * rewrite unblock_executable_run, Hk by exact Hv. reflexivity.
      * rewrite is_blocked_run, Hv, marker_active_no_key by exact Hk. reflexivity.
  - intros He. split.
    + rewrite block_executable_run, He by exact Hv. eauto.
    + rewrite unblock_executable_run, He by exact Hv.
      destruct (hklm w !! key_path n); eauto.
Qed.

(** The hypothesis of C4 at [ya.exe] on the elevated machine, where the
    first calls succeed. *)
Lemma block_unblock_idempotent_witness :
  _validate_exe_name ucd_russian (cp "ya.exe") = true /\
  (exists msg w1, block_executable ucd_russian (cp "ya.exe") w_admin = (Ret (true, msg), w1)) /\
  (exists msg w1, unblock_executable ucd_russian (cp "ya.exe") w_admin = (Ret (true, msg), w1)).
Proof.
  assert (H : _validate_exe_name ucd_russian (cp "ya.exe") = true) by reflexivity.
  split; [exact H|].
  exact (proj2 (proj2 (block_unblock_idempotent ucd_russian (cp "ya.exe") w_admin H))
           eq_refl).
Defined.

(** C3 (amended): a caller that is not elevated never changes the registry.
    [block_executable] fails, with the missing-rights message for a name the
    validator accepts and the invalid-name message otherwise;
    [unblock_executable] fails with the missing-rights message when the key
    of the name is there, and succeeds, having done nothing, when it is
    not. *)
Theorem unelevated_leaves_registry (ucd : UnicodeData) (n : pystr) (w : World) :
  elevated w = false ->
  block_executable ucd n w =
    (Ret (false, if _validate_exe_name ucd n then MsgNoAdminBlock n else MsgInvalidName n), w)
  /\
  unblock_executable ucd n w =
    (Ret (if _validate_exe_name ucd n
          then match hklm w !! key_path n with
               | Some _ => (false, MsgNoAdminUnblock n)
               | None => (true, MsgUnblocked n)
               end
          else (false, MsgInvalidName n)), w).
Proof.
  intros He. destruct (_validate_exe_name ucd n) eqn:Hv.
  - rewrite block_executable_run, unblock_executable_run, He by exact Hv.
    split; [reflexivity|]. destruct (hklm w !! key_path n); reflexivity.
  - unfold block_executable, unblock_executable. rewrite Hv. split; reflexivity.
Qed.

(** The hypothesis of C3 on the machine where [ya.exe] is blocked and the
    caller is not elevated. *)
Lemma unelevated_leaves_registry_witness :
  elevated w_user_blocked = false /\
  block_executable ucd_russian (cp "ya.exe") w_user_blocked =
    (Ret (false, MsgNoAdminBlock (cp "ya.exe")), w_user_blocked) /\
  unblock_executable ucd_russian (cp "ya.exe") w_user_blocked =
    (Ret (false, MsgNoAdminUnblock (cp "ya.exe")), w_user_blocked).
Proof.
  split; [reflexivity|].
  exact (unelevated_leaves_registry ucd_russian (cp "ya.exe") w_user_blocked eq_refl).
Defined.

(** C3 (as stated) fails: without elevation [unblock_executable] of a name
    that has no key reports success, not a permission failure, and
    [block_executable] of an invalid name reports the invalid name. *)
Lemma unelevated_unblock_succeeds :
  elevated w_user = false /\
  unblock_executable ucd_russian (cp "browser.exe") w_user =
    (Ret (true, MsgUnblocked (cp "browser.exe")), w_user) /\
  block_executable ucd_russian (cp "../evil.exe") w_user =
    (Ret (false, MsgInvalidName (cp "../evil.exe")), w_user).
Proof. vm_compute. auto. Qed.

(** C6 (amended): [is_blocked] always returns, never raises and leaves the
    world as it found it.  It returns true exactly when the validator accepts
    the name, the key of the name is there and may be opened for reading, and
    its [Debugger] value is there and is the string [nul]; so a name the
    validator rejects, an absent key, an absent value, another value and a
    refused read all give false. *)
Theorem is_blocked_total (ucd : UnicodeData) (n : pystr) (w : World) :
  exists b,
    is_blocked ucd n w = (Ret b, w) /\
    (b = true <->
     _validate_exe_name ucd n = true /\
     exists k v,
       hklm w !! key_path n = Some k /\
       (elevated w = true \/ key_users_read k = true) /\
       key_values k !! DEBUGGER = Some v /\
       py_of_reg v = PyStr BLOCKER_CMD).
Proof.
  eexists. split; [apply is_blocked_run|].
  rewrite andb_true_iff. unfold marker_active.
  split.
  - intros [Hv H]. split; [exact Hv|].
    destruct (hklm w !! key_path n) as [k|]; [|discriminate].
    apply andb_true_iff in H as [Hr H]. apply orb_true_iff in Hr.
    destruct (key_values k !! DEBUGGER) as [v|] eqn:Hd; [|discriminate].
    exists k, v. split; [reflexivity|]. split; [exact Hr|]. split; [exact Hd|].
    destruct (py_of_reg v) as [|s| |]; try discriminate.
    simpl in H. apply str_eqb_eq in H. congruence.
  - intros [Hv [k [v [Hk [Hr [Hd Hm]]]]]]. split; [exact Hv|].
    rewrite Hk, Hd, Hm, py_eq_str_refl, andb_true_r.
    apply orb_true_iff. exact Hr.
Qed.

(** C6 (as stated) fails: under the key [notepad] the [Debugger] value is
    there and is [nul], and [is_blocked] of that name is false, because the
    validator rejects a name without [.exe]. *)
Lemma is_blocked_rejects_invalid_name :
  hklm w_notepad !! key_path (cp "notepad") = Some blocked_key /\
  key_values blocked_key !! DEBUGGER = Some (REG_SZ BLOCKER_CMD) /\
  is_blocked ucd_russian (cp "notepad") w_notepad = (Ret false, w_notepad).
Proof.
  split; [apply lookup_singleton_eq|]. split; [apply lookup_singleton_eq|].
  rewrite is_blocked_run.
  replace (_validate_exe_name ucd_russian (cp "notepad")) with false by reflexivity.
  reflexivity.
Qed.

(** The cases of a failed read, one by one. *)
Lemma is_blocked_read_failures (ucd : UnicodeData) (n : pystr) (w : World) :
  (hklm w !! key_path n = None -> is_blocked ucd n w = (Ret false, w)) /\
  (forall k, hklm w !! key_path n = Some k ->
     key_values k !! DEBUGGER = None -> is_blocked ucd n w = (Ret false, w)) /\
  (forall k, hklm w !! key_path n = Some k ->
     elevated w = false -> key_users_read k = false ->
     is_blocked ucd n w = (Ret false, w)).
Proof.
  rewrite is_blocked_run. unfold marker_active. repeat split.
  - intros ->. rewrite andb_false_r. reflexivity.
  - intros k -> ->. rewrite !andb_false_r. reflexivity.
  - intros k -> -> ->. rewrite andb_false_r. reflexivity.
Qed.

(** C8: for a name the validator accepts, [unblock_executable] succeeds and
    changes nothing when the key of the name is not there, whoever calls;
    and for an elevated caller it succeeds whether or not the [Debugger]
    value is there, and whether or not the key can then be removed: a key
    with subkeys stays, without the value, and the call still succeeds. *)
Theorem unblock_absent_succeeds (ucd : UnicodeData) (n : pystr) (w : World) :
  _validate_exe_name ucd n = true ->
  (hklm w !! key_path n = None ->
   unblock_executable ucd n w = (Ret (true, MsgUnblocked n), w))
  /\
  (forall k, hklm w !! key_path n = Some k -> elevated w = true ->
   exists w',
     unblock_executable ucd n w = (Ret (true, MsgUnblocked n), w') /\
     hklm w' !! key_path n =
       (if key_has_subkeys k then Some (key_without_value k DEBUGGER) else None) /\
     (key_values k !! DEBUGGER = None -> key_has_subkeys k = true -> w' = w)).
Proof.
  intros Hv. split.
  - intros Hk. rewrite unblock_executable_run, Hk by exact Hv. reflexivity.
  - intros k Hk He. rewrite unblock_executable_run, Hk, He by exact Hv.
    eexists. split; [reflexivity|]. split; [apply without_marker_lookup|].
    intros Hd Hs. unfold without_marker. rewrite Hs.
    rewrite key_without_absent_value by exact Hd.
    rewrite insert_id by exact Hk. apply set_hklm_same.
Qed.

(** The hypothesis of C8 at [ya.exe] on the machine with nothing under
    IFEO: the call succeeds without elevation. *)
Lemma unblock_absent_succeeds_witness :
  _validate_exe_name ucd_russian (cp "ya.exe") = true /\
  hklm w_user !! key_path (cp "ya.exe") = None /\
  unblock_executable ucd_russian (cp "ya.exe") w_user =
    (Ret (true, MsgUnblocked (cp "ya.exe")), w_user).
Proof.
  assert (H : _validate_exe_name ucd_russian (cp "ya.exe") = true) by reflexivity.
  assert (Hk : hklm w_user !! key_path (cp "ya.exe") = None) by reflexivity.
  split; [exact H|]. split; [exact Hk|].
  exact (proj1 (unblock_absent_succeeds ucd_russian (cp "ya.exe") w_user H) Hk).
Defined.

(** ** The batch operations *)

(** Both single operations always return, and what they say is about the
    name they were given. *)
Lemma block_executable_returns (ucd : UnicodeData) (n : pystr) (w : World) :
  exists ok msg w',
    block_executable ucd n w = (Ret (ok, msg), w') /\ msg_target msg = n.
Proof.
  destruct (_validate_exe_name ucd n) eqn:Hv.
  - rewrite block_executable_run by exact Hv.
    destruct (elevated w); do 3 eexists; split; reflexivity.
  - unfold block_executable. rewrite Hv. do 3 eexists. split; reflexivity.
Qed.

Lemma unblock_executable_returns (ucd : UnicodeData) (n : pystr) (w : World) :
  exists ok msg w',
    unblock_executable ucd n w = (Ret (ok, msg), w') /\ msg_target msg = n.
Proof.
  destruct (_validate_exe_name ucd n) eqn:Hv.
  - rewrite unblock_executable_run by exact Hv.
    destruct (hklm w !! key_path n); [destruct (elevated w)|];
      do 3 eexists; split; reflexivity.
  - unfold unblock_executable. rewrite Hv. do 3 eexists. split; reflexivity.
Qed.

(** The loop, for an operation that always returns: it makes one call per
    target, in order; it adds the message of each call to [messages] and
    lowers [all_success] at each failure, and at nothing else. *)
Lemma for_each_spec (op : pystr -> Py (bool * Msg)) :
  (forall n w, exists ok msg w', op n w = (Ret (ok, msg), w') /\ msg_target msg = n) ->
  forall executables all_success messages w,
  exists results w',
    attempts op executables w results w' /\
    for_each op executables all_success messages w =
      (Ret (all_success && forallb fst results, messages ++ map snd results), w') /\
    map msg_target (map snd results) = executables.
Proof.
  intros Hop executables.
  induction executables as [|exe rest IH]; intros all_success messages w.
  - exists [], w. split; [constructor|]. split; [|reflexivity].
    simpl. unfold ret. rewrite andb_true_r, app_nil_r. reflexivity.
  - destruct (Hop exe w) as [ok [msg [w1 [Hrun Htarget]]]].
    destruct (IH (if negb ok then false else all_success) (messages ++ [msg]) w1)
      as [results [w2 [Hatt [Hloop Hmsgs]]]].
    exists ((ok, msg) :: results), w2. split; [econstructor; eauto|]. split.
    + cbn [for_each]. unfold bind at 1. rewrite Hrun. cbn [fst snd].
      rewrite Hloop. cbn [forallb map fst snd]. rewrite <- app_assoc.
      destruct ok, all_success; reflexivity.
    + cbn [map snd]. rewrite Htarget, Hmsgs. reflexivity.
Qed.

(** C5: [block_all] calls [block_executable] on every target, in list order,
    whatever the earlier calls returned; it returns the messages of those
    calls in the same order, one per target, each about its own target; and
    its flag is true exactly when every one of the calls succeeded.  The
    same holds of [unblock_all] and [unblock_executable]. *)
Theorem block_all_reports_every_target (ucd : UnicodeData) (targets : list pystr) (w : World) :
  (exists results w',
     attempts (block_executable ucd) targets w results w' /\
     block_all ucd targets w = (Ret (forallb fst results, map snd results), w') /\
     length (map snd results) = length targets /\
     map msg_target (map snd results) = targets /\
     (forallb fst results = true <-> Forall (fun r => fst r = true) results))
  /\
  (exists results w',
     attempts (unblock_executable ucd) targets w results w' /\
     unblock_all ucd targets w = (Ret (forallb fst results, map snd results), w') /\
     length (map snd results) = length targets /\
     map msg_target (map snd results) = targets /\
     (forallb fst results = true <-> Forall (fun r => fst r = true) results)).
Proof.
  split.
  - destruct (for_each_spec (block_executable ucd) (block_executable_returns ucd)
                targets true [] w) as [results [w' [Hatt [Hrun Hmsgs]]]].
    exists results, w'. split; [exact Hatt|]. split; [exact Hrun|].
    split; [|split; [exact Hmsgs|]].
    + rewrite <- (length_map msg_target (map snd results)). f_equal. exact Hmsgs.
    + rewrite forallb_forall, Forall_forall. split; intros H x Hx; apply H;
        apply list_elem_of_In; exact Hx.
  - destruct (for_each_spec (unblock_executable ucd) (unblock_executable_returns ucd)
                targets true [] w) as [results [w' [Hatt [Hrun Hmsgs]]]].
    exists results, w'. split; [exact Hatt|]. split; [exact Hrun|].
    split; [|split; [exact Hmsgs|]].
    + rewrite <- (length_map msg_target (map snd results)). f_equal. exact Hmsgs.
    + rewrite forallb_forall, Forall_forall. split; intros H x Hx; apply H;
        apply list_elem_of_In; exact Hx.
Qed.


(** ** The status queries *)

Lemma is_blocked_now (ucd : UnicodeData) (n : pystr) (w : World) :
  is_blocked ucd n w = (Ret (blocked_now ucd w n), w).
Proof. apply is_blocked_run. Qed.

Lemma status_loop_run (ucd : UnicodeData) (executables : list pystr)
    (d : gmap pystr bool) (w : World) :
  status_loop ucd executables d w =
    (Ret (fold_left (fun d exe => <[exe := blocked_now ucd w exe]> d) executables d), w).
Proof.
  revert d. induction executables as [|exe rest IH]; intros d; [reflexivity|].
  cbn [status_loop fold_left]. unfold bind at 1. rewrite is_blocked_now. apply IH.
Qed.

(** The dictionary after the loop: the answer of [is_blocked] for every name
    of the list, and what was there before for every other name. *)
Lemma status_lookup (f : pystr -> bool) (executables : list pystr)
    (d : gmap pystr bool) (t : pystr) :
  fold_left (fun d exe => <[exe := f exe]> d) executables d !! t =
    if decide (t ∈ executables) then Some (f t) else d !! t.
Proof.
  revert d. induction executables as [|exe rest IH]; intros d; cbn [fold_left].
  - destruct (decide (t ∈ [])) as [H|_]; [|reflexivity].
    apply elem_of_nil in H. destruct H.
  - rewrite IH. destruct (decide (t ∈ rest)) as [Hin|Hout].
    + rewrite decide_True by (right; exact Hin). reflexivity.
    + destruct (decide (exe = t)) as [->|Hne].
      * rewrite decide_True by left. apply lookup_insert_eq.
      * rewrite lookup_insert_ne by exact Hne.
        rewrite decide_False; [reflexivity|].
        intros H. apply elem_of_cons in H as [-> | H]; [apply Hne; reflexivity | auto].
Qed.

Lemma count_loop_run (ucd : UnicodeData) (executables : list pystr) (total : Z) (w : World) :
  count_loop ucd executables total w =
    (Ret (total + Z.of_nat (length (List.filter (blocked_now ucd w) executables)))%Z, w).
Proof.
  revert total. induction executables as [|exe rest IH]; intros total.
  - cbn. unfold ret. rewrite Z.add_0_r. reflexivity.
  - cbn [count_loop List.filter]. unfold bind at 1. rewrite is_blocked_now, IH.
    destruct (blocked_now ucd w exe); cbn [length]; do 2 f_equal; lia.
Qed.

Lemma is_any_blocked_run (ucd : UnicodeData) (executables : list pystr) (w : World) :
  is_any_blocked ucd executables w = (Ret (existsb (blocked_now ucd w) executables), w).
Proof.
  induction executables as [|exe rest IH]; [reflexivity|].
  cbn [is_any_blocked existsb]. unfold bind at 1. rewrite is_blocked_now.
  destruct (blocked_now ucd w exe); [reflexivity | exact IH].
Qed.

(** C9: for every list of targets the three queries return and leave the
    world alone; [get_status] holds, for every target, what [is_blocked]
    returns for it; [get_blocked_count] is the number of targets of the list
    whose entry in that dictionary is true; and [is_any_blocked] is true
    exactly when the dictionary has a true entry.  For the empty list the
    count is 0 and [is_any_blocked] is false. *)
Theorem count_and_any_agree_with_status (ucd : UnicodeData) (targets : list pystr) (w : World) :
  (exists status,
     get_status ucd targets w = (Ret status, w) /\
     (forall t, In t targets ->
        exists b, status !! t = Some b /\ is_blocked ucd t w = (Ret b, w)) /\
     get_blocked_count ucd targets w =
       (Ret (Z.of_nat (length
               (List.filter (fun t => bool_decide (status !! t = Some true)) targets))), w) /\
     exists any,
       is_any_blocked ucd targets w = (Ret any, w) /\
       (any = true <-> exists t, status !! t = Some true))
  /\ get_blocked_count ucd [] w = (Ret 0%Z, w)
  /\ is_any_blocked ucd [] w = (Ret false, w).
Proof.
  split; [|split; reflexivity].
  eexists. split; [apply status_loop_run|].
  set (status := fold_left _ targets ∅).
  assert (Hst : forall t, In t targets -> status !! t = Some (blocked_now ucd w t)).
  { intros t Ht. unfold status. rewrite status_lookup.
    rewrite decide_True by (apply list_elem_of_In; exact Ht). reflexivity. }
  split; [|split].
  - intros t Ht. exists (blocked_now ucd w t). split; [auto | apply is_blocked_now].
  - unfold get_blocked_count. rewrite count_loop_run, Z.add_0_l.
    assert (Hf : List.filter (blocked_now ucd w) targets =
                 List.filter (fun t => bool_decide (status !! t = Some true)) targets).
    { apply List.filter_ext_in. intros t Ht. rewrite Hst by exact Ht.
      destruct (blocked_now ucd w t); symmetry;
        [apply bool_decide_eq_true | apply bool_decide_eq_false]; congruence. }
    rewrite Hf. reflexivity.
  - eexists. split; [apply is_any_blocked_run|].
    rewrite existsb_exists. split.
    + intros [t [Ht Hb]]. exists t. rewrite Hst by exact Ht. congruence.
    + intros [t Ht]. exists t. unfold status in Ht. rewrite status_lookup in Ht.
      destruct (decide (t ∈ targets)) as [Hin|_].
      * split; [apply list_elem_of_In; exact Hin | congruence].
      * rewrite lookup_empty in Ht. discriminate.
Qed.


(** ** The classifier *)

Lemma py_or_str (o : option pystr) :
  py_or (py_of_opt PyStr o) (PyStr []) = PyStr (default [] o).
Proof. destruct o as [[|c s]|]; reflexivity. Qed.

Lemma py_or_strlist (o : option (list pystr)) :
  py_or (py_of_opt PyStrList o) (PyStrList []) = PyStrList (default [] o).
Proof. destruct o as [[|p l]|]; reflexivity. Qed.

Lemma proc_info_fields (h : ProcessHandle) :
  dict_get (proc_info_of h) "name" = py_of_opt PyStr (ph_name h) /\
  dict_get (proc_info_of h) "exe" = py_of_opt PyStr (ph_exe h) /\
  dict_get (proc_info_of h) "cmdline" = py_of_opt PyStrList (ph_cmdline h).
Proof.
  unfold dict_get, proc_info_of. split; [|split].
  - rewrite lookup_insert_ne by discriminate. rewrite lookup_insert_eq. reflexivity.
  - rewrite !lookup_insert_ne by discriminate. rewrite lookup_insert_eq. reflexivity.
  - rewrite !lookup_insert_ne by discriminate. rewrite lookup_insert_eq. reflexivity.
Qed.

(** The classifier on a snapshot entry, as one boolean. *)
Lemma is_yandex_browser_run (ucd : UnicodeData) (h : ProcessHandle) :
  _is_yandex_browser ucd (proc_info_of h) =
    Ret (any_indicator_in YANDEX_INDICATORS (str_lower ucd (exe_of h)) ||
         (str_eqb (str_lower ucd (name_of h)) HOST_NAME &&
          any_indicator_in YANDEX_INDICATORS
            (str_lower ucd (str_join (cp " ") (cmdline_of h))))).
Proof.
  unfold _is_yandex_browser.
  destruct (proc_info_fields h) as [-> [-> ->]].
  rewrite !py_or_str, py_or_strlist. cbn [lower_method obind join_method].
  fold (exe_of h) (name_of h) (cmdline_of h).
  destruct (any_indicator_in YANDEX_INDICATORS (str_lower ucd (exe_of h))); [reflexivity|].
  destruct (str_eqb (str_lower ucd (name_of h)) HOST_NAME); [|reflexivity].
  cbn [obind orb andb].
  destruct (any_indicator_in YANDEX_INDICATORS _); reflexivity.
Qed.

Lemma any_indicator_in_has_indicator (s : pystr) :
  any_indicator_in YANDEX_INDICATORS s = true <-> has_indicator s.
Proof.
  rewrite any_indicator_in_spec. unfold has_indicator. split.
  - intros [i [Hin Hc]]. apply str_contains_spec in Hc as [pre [post E]]. eauto 6.
  - intros [i [pre [post [Hin E]]]]. exists i. split; [exact Hin|].
    apply str_contains_spec. eauto.
Qed.

(** C7 (amended): the classifier returns, and it matches a process exactly
    when the lower-cased resolved path has one of the indicators in it, or
    the lower-cased declared name is [browser.exe] -- the name is compared
    without regard to case -- and the lower-cased, space-joined argument
    vector has one of the indicators in it.  In particular a process named
    [browser.exe] whose path and arguments have no indicator does not
    match. *)
Theorem is_yandex_browser_matches (ucd : UnicodeData) (h : ProcessHandle) :
  exists b,
    _is_yandex_browser ucd (proc_info_of h) = Ret b /\
    (b = true <->
     has_indicator (str_lower ucd (exe_of h)) \/
     (str_lower ucd (name_of h) = HOST_NAME /\
      has_indicator (str_lower ucd (str_join (cp " ") (cmdline_of h))))).
Proof.
  eexists. split; [apply is_yandex_browser_run|].
  rewrite orb_true_iff, andb_true_iff, str_eqb_eq, !any_indicator_in_has_indicator.
  reflexivity.
Qed.

(** C7 (as stated) fails: a process whose declared name is [Browser.EXE],
    not the host name [browser.exe], and whose path has no indicator, is
    matched through its arguments. *)
Lemma is_yandex_browser_name_any_case :
  ph_name renderer_process <> Some HOST_NAME /\
  any_indicator_in YANDEX_INDICATORS (str_lower ucd_russian (exe_of renderer_process)) = false /\
  _is_yandex_browser ucd_russian (proc_info_of renderer_process) = Ret true.
Proof.
  split; [discriminate|]. split; [reflexivity|].
  rewrite is_yandex_browser_run. reflexivity.
Qed.

(** C10: on a snapshot entry with missing fields the classifier returns a
    boolean and never raises; it returns what it returns when every missing
    field is the empty string or the empty list; and it does not match an
    entry whose name, path and arguments are all missing, nor a dictionary
    without those keys. *)
Theorem is_yandex_browser_total (ucd : UnicodeData) (h : ProcessHandle) :
  (exists b, _is_yandex_browser ucd (proc_info_of h) = Ret b) /\
  _is_yandex_browser ucd (proc_info_of h) =
    _is_yandex_browser ucd (proc_info_of (with_empty_fields h)) /\
  _is_yandex_browser ucd
    (proc_info_of {| ph_pid := ph_pid h; ph_name := None; ph_exe := None;
                     ph_cmdline := None |}) = Ret false /\
  _is_yandex_browser ucd ∅ = Ret false.
Proof.
  split; [eexists; apply is_yandex_browser_run|]. split; [|split].
  - rewrite !is_yandex_browser_run. reflexivity.
  - rewrite is_yandex_browser_run. reflexivity.
  - reflexivity.
Qed.

(** * Further properties of the code *)

(** ** One name and the others *)

#[local] Transparent key_path.


#[local] Opaque key_path.

Lemma marker_active_with_marker_other (n m : pystr) (w : World) :
  key_path n <> key_path m ->
  marker_active n (with_marker m w) = marker_active n w.
Proof.
  intros Hne. unfold marker_active, with_marker. cbn [hklm elevated set_hklm].
  rewrite lookup_insert_ne by congruence. reflexivity.
Qed.

Lemma marker_active_without_marker_other (n m : pystr) (k : RegKey) (w : World) :
  key_path n <> key_path m ->
  marker_active n (without_marker m k w) = marker_active n w.
Proof.
  intros Hne. unfold marker_active, without_marker.
  destruct (key_has_subkeys k); cbn [hklm elevated set_hklm].
  - rewrite lookup_insert_ne by congruence. reflexivity.
  - rewrite lookup_delete_ne by congruence. reflexivity.
Qed.

(** Neither operation changes who the caller is or what machine it is. *)
Lemma block_executable_same_caller (ucd : UnicodeData) (n : pystr) (w : World) :
  elevated (snd (block_executable ucd n w)) = elevated w /\
  sys_maxsize (snd (block_executable ucd n w)) = sys_maxsize w.
Proof.
  destruct (_validate_exe_name ucd n) eqn:Hv.
  - rewrite block_executable_run by exact Hv. destruct (elevated w) eqn:He; auto.
  - unfold block_executable. rewrite Hv. auto.
Qed.

Lemma unblock_executable_same_caller (ucd : UnicodeData) (n : pystr) (w : World) :
  elevated (snd (unblock_executable ucd n w)) = elevated w /\
  sys_maxsize (snd (unblock_executable ucd n w)) = sys_maxsize w.
Proof.
  destruct (_validate_exe_name ucd n) eqn:Hv.
  - rewrite unblock_executable_run by exact Hv.
    destruct (hklm w !! key_path n) as [k|]; [|auto].
    destruct (elevated w) eqn:He; [|auto].
    unfold without_marker. destruct (key_has_subkeys k); auto.
  - unfold unblock_executable. rewrite Hv. auto.
Qed.



(** ** Blocking and then unblocking *)

Lemma key_without_with_value (k : RegKey) (name : pystr) (data : RegValue) :
  key_without_value (key_with_value k name data) name = key_without_value k name.
Proof.
  unfold key_without_value, key_with_value.
  cbn [key_values key_has_subkeys key_users_read].
  rewrite delete_insert_eq. reflexivity.
Qed.

(** What is under the key of a name after an elevated caller has blocked
    and then unblocked it. *)
Lemma block_then_unblock_run (ucd : UnicodeData) (n : pystr) (w : World) :
  _validate_exe_name ucd n = true -> elevated w = true ->
  exists w1 w2,
    block_executable ucd n w = (Ret (true, MsgBlocked n), w1) /\
    unblock_executable ucd n w1 = (Ret (true, MsgUnblocked n), w2) /\
    w2 = set_hklm
           (match hklm w !! key_path n with
            | None => hklm w
            | Some k =>
                if key_has_subkeys k
                then <[key_path n := key_without_value k DEBUGGER]> (hklm w)
                else delete (key_path n) (hklm w)
            end) w.
Proof.
  intros Hv He. do 2 eexists.
  rewrite block_executable_run, He by exact Hv. split; [reflexivity|].
  rewrite unblock_executable_run by exact Hv.
  unfold with_marker at 1 2. cbn [hklm elevated set_hklm]. rewrite lookup_insert_eq, He.
  split; [reflexivity|].
  unfold without_marker, with_marker, key_with_value at 1.
  cbn [key_has_subkeys hklm elevated sys_maxsize set_hklm].
  destruct (hklm w !! key_path n) as [k|] eqn:Hk; cbn [default from_option id].
  - destruct (key_has_subkeys k).
    + rewrite insert_insert_eq, key_without_with_value. reflexivity.
    + rewrite delete_insert_eq. reflexivity.
  - cbn [winreg.fresh_key key_has_subkeys].
    rewrite delete_insert_eq, delete_id by exact Hk. reflexivity.
Qed.

(** X2: on a machine where the name has no key under IFEO, an elevated
    caller's [block_executable] followed by [unblock_executable] both
    succeed and leave the registry exactly as it was. *)
Theorem block_then_unblock_restores (ucd : UnicodeData) (n : pystr) (w : World) :
  _validate_exe_name ucd n = true -> elevated w = true ->
  hklm w !! key_path n = None ->
  exists w1,
    block_executable ucd n w = (Ret (true, MsgBlocked n), w1) /\
    unblock_executable ucd n w1 = (Ret (true, MsgUnblocked n), w).
Proof.
  intros Hv He Hk.
  destruct (block_then_unblock_run ucd n w Hv He) as [w1 [w2 [Hb [Hu ->]]]].
  exists w1. split; [exact Hb|]. rewrite Hu, Hk, set_hklm_same. reflexivity.
Qed.

(** The hypotheses of X2 at [ya.exe] on the elevated machine with nothing
    under IFEO. *)
Lemma block_then_unblock_restores_witness :
  exists w1,
    block_executable ucd_russian (cp "ya.exe") w_admin =
      (Ret (true, MsgBlocked (cp "ya.exe")), w1) /\
    unblock_executable ucd_russian (cp "ya.exe") w1 =
      (Ret (true, MsgUnblocked (cp "ya.exe")), w_admin).
Proof.
  exact (block_then_unblock_restores ucd_russian (cp "ya.exe") w_admin
           eq_refl eq_refl (lookup_empty _)).
Defined.

(** X3: when the key of the name was there before, blocking and then
    unblocking does not bring it back.  A key without subkeys is deleted
    with every value it had, not only [Debugger]; a key with subkeys keeps
    its other values and loses the [Debugger] value it had before. *)
Theorem block_then_unblock_loses_key (ucd : UnicodeData) (n : pystr) (w : World) (k : RegKey) :
  _validate_exe_name ucd n = true -> elevated w = true ->
  hklm w !! key_path n = Some k ->
  exists w1 w2,
    block_executable ucd n w = (Ret (true, MsgBlocked n), w1) /\
    unblock_executable ucd n w1 = (Ret (true, MsgUnblocked n), w2) /\
    hklm w2 !! key_path n =
      (if key_has_subkeys k then Some (key_without_value k DEBUGGER) else None) /\
    (forall p, p <> key_path n -> hklm w2 !! p = hklm w !! p).
Proof.
  intros Hv He Hk.
  destruct (block_then_unblock_run ucd n w Hv He) as [w1 [w2 [Hb [Hu ->]]]].
  exists w1. eexists. split; [exact Hb|]. split; [exact Hu|].
  rewrite Hk. cbn [hklm set_hklm]. destruct (key_has_subkeys k); split.
  - apply lookup_insert_eq.
  - intros p Hp. apply lookup_insert_ne. congruence.
  - apply lookup_delete_eq.
  - intros p Hp. apply lookup_delete_ne. congruence.
Qed.

(** The hypotheses of X3 on the machine where an administrator's own
    settings were under the key of [ya.exe]: they are gone afterwards. *)
Lemma block_then_unblock_loses_key_witness :
  hklm w_debugged !! key_path (cp "ya.exe") = Some debugged_key /\
  exists w1 w2,
    block_executable ucd_russian (cp "ya.exe") w_debugged =
      (Ret (true, MsgBlocked (cp "ya.exe")), w1) /\
    unblock_executable ucd_russian (cp "ya.exe") w1 =
      (Ret (true, MsgUnblocked (cp "ya.exe")), w2) /\
    hklm w2 !! key_path (cp "ya.exe") = None /\
    (forall p, p <> key_path (cp "ya.exe") -> hklm w2 !! p = hklm w_debugged !! p).
Proof.
  assert (Hk : hklm w_debugged !! key_path (cp "ya.exe") = Some debugged_key)
    by apply lookup_singleton_eq.
  split; [exact Hk|].
  exact (block_then_unblock_loses_key ucd_russian (cp "ya.exe") w_debugged debugged_key
           eq_refl eq_refl Hk).
Defined.

(** ** Whole batches *)

Lemma marker_stays_active (n m : pystr) (w : World) :
  marker_active n w = true -> marker_active n (with_marker m w) = true.
Proof.
  intros H. destruct (decide (key_path n = key_path m)) as [E|Hne].
  - unfold marker_active in *. unfold with_marker. cbn [hklm elevated set_hklm].
    rewrite E in *. rewrite lookup_insert_eq.
    destruct (hklm w !! key_path m) as [k|]; [|discriminate].
    apply andb_true_iff in H as [Hr _]. cbn [default from_option id].
    unfold key_with_value. cbn [key_values key_users_read].
    rewrite Hr, lookup_insert_eq. apply py_eq_str_refl.
  - rewrite marker_active_with_marker_other by exact Hne. exact H.
Qed.

Lemma marker_stays_inactive (n m : pystr) (w : World) :
  marker_active n w = false -> marker_active n (unblocked m w) = false.
Proof.
  intros H. unfold unblocked.
  destruct (hklm w !! key_path m) as [k|] eqn:Hk; [|exact H].
  destruct (decide (key_path n = key_path m)) as [E|Hne].
  - unfold marker_active at 1. rewrite E.
    fold (marker_active m (without_marker m k w)). apply marker_active_without_marker.
  - rewrite marker_active_without_marker_other by exact Hne. exact H.
Qed.

Lemma unblocked_inactive (n : pystr) (w : World) :
  marker_active n (unblocked n w) = false.
Proof.
  unfold unblocked. destruct (hklm w !! key_path n) as [k|] eqn:Hk.
  - apply marker_active_without_marker.
  - apply marker_active_no_key, Hk.
Qed.

Lemma unblocked_same_caller (n : pystr) (w : World) :
  elevated (unblocked n w) = elevated w.
Proof.
  unfold unblocked. destruct (hklm w !! key_path n) as [k|]; [|reflexivity].
  unfold without_marker. destruct (key_has_subkeys k); reflexivity.
Qed.

Lemma unblock_executable_elevated (ucd : UnicodeData) (n : pystr) (w : World) :
  _validate_exe_name ucd n = true -> elevated w = true ->
  unblock_executable ucd n w = (Ret (true, MsgUnblocked n), unblocked n w).
Proof.
  intros Hv He. rewrite unblock_executable_run, He by exact Hv.
  unfold unblocked. destruct (hklm w !! key_path n); reflexivity.
Qed.

(** The loop over valid names, for an elevated caller. *)
Lemma for_each_block_elevated (ucd : UnicodeData) (executables : list pystr) :
  Forall (fun t => _validate_exe_name ucd t = true) executables ->
  forall all_success messages w, elevated w = true ->
  for_each (block_executable ucd) executables all_success messages w =
    (Ret (all_success, messages ++ map MsgBlocked executables),
     fold_left (fun w t => with_marker t w) executables w).
Proof.
  induction 1 as [|exe rest Hv _ IH]; intros all_success messages w He.
  - cbn. unfold ret. rewrite app_nil_r. reflexivity.
  - cbn [for_each fold_left map]. unfold bind at 1.
    rewrite block_executable_run, He by exact Hv. cbn [fst snd negb].
    rewrite IH by exact He. rewrite <- app_assoc. reflexivity.
Qed.

Lemma for_each_unblock_elevated (ucd : UnicodeData) (executables : list pystr) :
  Forall (fun t => _validate_exe_name ucd t = true) executables ->
  forall all_success messages w, elevated w = true ->
  for_each (unblock_executable ucd) executables all_success messages w =
    (Ret (all_success, messages ++ map MsgUnblocked executables),
     fold_left (fun w t => unblocked t w) executables w).
Proof.
  induction 1 as [|exe rest Hv _ IH]; intros all_success messages w He.
  - cbn. unfold ret. rewrite app_nil_r. reflexivity.
  - cbn [for_each fold_left map]. unfold bind at 1.
    rewrite unblock_executable_elevated by assumption. cbn [fst snd negb].
    rewrite IH by (rewrite unblocked_same_caller; exact He).
    rewrite <- app_assoc. reflexivity.
Qed.

Lemma blocked_after_fold (targets : list pystr) (t : pystr) (w : World) :
  elevated w = true ->
  In t targets \/ marker_active t w = true ->
  marker_active t (fold_left (fun w t => with_marker t w) targets w) = true.
Proof.
  revert w. induction targets as [|x rest IH]; intros w He H; cbn [fold_left].
  - destruct H as [[] | H]. exact H.
  - apply IH; [exact He|]. destruct H as [[-> | Hin] | H].
    + right. apply marker_active_with_marker, He.
    + left. exact Hin.
    + right. apply marker_stays_active, H.
Qed.

Lemma unblocked_after_fold (targets : list pystr) (t : pystr) (w : World) :
  In t targets \/ marker_active t w = false ->
  marker_active t (fold_left (fun w t => unblocked t w) targets w) = false.
Proof.
  revert w. induction targets as [|x rest IH]; intros w H; cbn [fold_left].
  - destruct H as [[] | H]. exact H.
  - apply IH. destruct H as [[-> | Hin] | H].
    + right. apply unblocked_inactive.
    + left. exact Hin.
    + right. apply marker_stays_inactive, H.
Qed.

Lemma filter_all {A} (f : A -> bool) (l : list A) :
  (forall x, In x l -> f x = true) -> List.filter f l = l.
Proof.
  induction l as [|x l IH]; intros H; [reflexivity|]. cbn [List.filter].
  rewrite H by (left; reflexivity). rewrite IH; [reflexivity|].
  intros y Hy. apply H. right. exact Hy.
Qed.

Lemma filter_none {A} (f : A -> bool) (l : list A) :
  (forall x, In x l -> f x = false) -> List.filter f l = [].
Proof.
  induction l as [|x l IH]; intros H; [reflexivity|]. cbn [List.filter].
  rewrite H by (left; reflexivity). apply IH.
  intros y Hy. apply H. right. exact Hy.
Qed.

(** X4: for an elevated caller and a list of names the validator accepts,
    [block_all] succeeds with one "blocked" message per target, and
    afterwards [is_blocked] is true for every target and
    [get_blocked_count] is the length of the list. *)
Theorem block_all_blocks_every_target (ucd : UnicodeData) (targets : list pystr) (w : World) :
  elevated w = true ->
  Forall (fun t => _validate_exe_name ucd t = true) targets ->
  exists w',
    block_all ucd targets w = (Ret (true, map MsgBlocked targets), w') /\
    (forall t, In t targets -> is_blocked ucd t w' = (Ret true, w')) /\
    get_blocked_count ucd targets w' = (Ret (Z.of_nat (length targets)), w').
Proof.
  intros He Hv. eexists. split; [apply for_each_block_elevated; assumption|].
  set (w' := fold_left _ targets w).
  assert (Hall : forall t, In t targets -> blocked_now ucd w' t = true).
  { intros t Ht. unfold blocked_now.
    rewrite Forall_forall in Hv. rewrite Hv by (apply list_elem_of_In; exact Ht).
    apply blocked_after_fold; auto. }
  split.
  - intros t Ht. rewrite is_blocked_now, Hall by exact Ht. reflexivity.
  - unfold get_blocked_count. rewrite count_loop_run, Z.add_0_l.
    rewrite filter_all by exact Hall. reflexivity.
Qed.

(** The hypotheses of X4 at the default list on the elevated machine. *)
Lemma block_all_blocks_every_target_witness :
  exists w',
    block_all ucd_russian BLOCKED_EXECUTABLES w_admin =
      (Ret (true, map MsgBlocked BLOCKED_EXECUTABLES), w') /\
    (forall t, In t BLOCKED_EXECUTABLES -> is_blocked ucd_russian t w' = (Ret true, w')) /\
    get_blocked_count ucd_russian BLOCKED_EXECUTABLES w' =
      (Ret (Z.of_nat (length BLOCKED_EXECUTABLES)), w').
Proof.
  apply (block_all_blocks_every_target ucd_russian BLOCKED_EXECUTABLES w_admin eq_refl).
  repeat constructor.
Defined.

(** X5: for an elevated caller and a list of names the validator accepts,
    [unblock_all] succeeds with one "unblocked" message per target, and
    afterwards [is_blocked] is false for every target, [get_blocked_count]
    is 0 and [is_any_blocked] is false. *)
Theorem unblock_all_unblocks_every_target (ucd : UnicodeData) (targets : list pystr) (w : World) :
  elevated w = true ->
  Forall (fun t => _validate_exe_name ucd t = true) targets ->
  exists w',
    unblock_all ucd targets w = (Ret (true, map MsgUnblocked targets), w') /\
    (forall t, In t targets -> is_blocked ucd t w' = (Ret false, w')) /\
    get_blocked_count ucd targets w' = (Ret 0%Z, w') /\
    is_any_blocked ucd targets w' = (Ret false, w').
Proof.
  intros He Hv. eexists. split; [apply for_each_unblock_elevated; assumption|].
  set (w' := fold_left _ targets w).
  assert (Hall : forall t, In t targets -> blocked_now ucd w' t = false).
  { intros t Ht. unfold blocked_now.
    unfold w'. rewrite unblocked_after_fold by (left; exact Ht). apply andb_false_r. }
  split; [|split].
  - intros t Ht. rewrite is_blocked_now, Hall by exact Ht. reflexivity.
  - unfold get_blocked_count. rewrite count_loop_run, Z.add_0_l.
    rewrite filter_none by exact Hall. reflexivity.
  - rewrite is_any_blocked_run. f_equal. f_equal.
    apply not_true_is_false. intros H. apply existsb_exists in H as [t [Ht Hb]].
    rewrite Hall in Hb by exact Ht. discriminate.
Qed.

(** The hypotheses of X5 at the default list on the elevated machine. *)
Lemma unblock_all_unblocks_every_target_witness :
  exists w',
    unblock_all ucd_russian BLOCKED_EXECUTABLES w_admin =
      (Ret (true, map MsgUnblocked BLOCKED_EXECUTABLES), w') /\
    (forall t, In t BLOCKED_EXECUTABLES -> is_blocked ucd_russian t w' = (Ret false, w')) /\
    get_blocked_count ucd_russian BLOCKED_EXECUTABLES w' = (Ret 0%Z, w') /\
    is_any_blocked ucd_russian BLOCKED_EXECUTABLES w' = (Ret false, w').
Proof.
  apply (unblock_all_unblocks_every_target ucd_russian BLOCKED_EXECUTABLES w_admin eq_refl).
  repeat constructor.
Defined.

(** ** When a batch succeeds *)

Lemma block_executable_ok (ucd : UnicodeData) (n : pystr) (w : World) :
  exists msg w',
    block_executable ucd n w = (Ret (_validate_exe_name ucd n && elevated w, msg), w') /\
    elevated w' = elevated w.
Proof.
  destruct (_validate_exe_name ucd n) eqn:Hv.
  - rewrite block_executable_run by exact Hv.
    destruct (elevated w) eqn:He; do 2 eexists; split; try reflexivity; exact He.
  - unfold block_executable. rewrite Hv. do 2 eexists. split; reflexivity.
Qed.

Lemma for_each_block_flag (ucd : UnicodeData) (executables : list pystr) :
  forall all_success messages w,
  exists messages' w',
    for_each (block_executable ucd) executables all_success messages w =
      (Ret (all_success &&
            forallb (fun t => _validate_exe_name ucd t && elevated w) executables,
            messages'), w').
Proof.
  induction executables as [|exe rest IH]; intros all_success messages w.
  - do 2 eexists. cbn. unfold ret. rewrite andb_true_r. reflexivity.
  - destruct (block_executable_ok ucd exe w) as [msg [w1 [Hrun He]]].
    destruct (IH (if negb (_validate_exe_name ucd exe && elevated w)
                  then false else all_success) (messages ++ [msg]) w1)
      as [messages' [w' Hloop]].
    exists messages', w'. cbn [for_each forallb]. unfold bind at 1.
    rewrite Hrun. cbn [fst snd]. rewrite Hloop, He.
    destruct (_validate_exe_name ucd exe && elevated w), all_success; reflexivity.
Qed.

(** X6: the flag [block_all] returns is true exactly when the list is empty,
    or the caller is elevated and the validator accepts every target. *)
Theorem block_all_flag (ucd : UnicodeData) (targets : list pystr) (w : World) :
  exists flag messages w',
    block_all ucd targets w = (Ret (flag, messages), w') /\
    (flag = true <->
     targets = [] \/
     (elevated w = true /\ Forall (fun t => _validate_exe_name ucd t = true) targets)).
Proof.
  destruct (for_each_block_flag ucd targets true [] w) as [messages [w' Hrun]].
  do 3 eexists. split; [exact Hrun|]. cbn [andb].
  rewrite forallb_forall. split.
  - intros H. destruct targets as [|t rest]; [left; reflexivity | right].
    assert (Ht := H t (or_introl eq_refl)). apply andb_true_iff in Ht as [_ He].
    split; [exact He|]. apply Forall_forall. intros x Hx.
    apply list_elem_of_In in Hx. apply H in Hx.
    apply andb_true_iff in Hx as [Hv _]. exact Hv.
  - intros [-> | [He Hv]] x Hx; [destruct Hx|].
    rewrite Forall_forall in Hv. rewrite Hv by (apply list_elem_of_In; exact Hx).
    rewrite He. reflexivity.
Qed.

(** ** Names that never reach the registry *)

(** X7: a name with an ASCII character outside [[A-Za-z0-9_.-]] anywhere in
    it -- a path separator, a wildcard, a blank, a quote, NUL -- the line
    feed apart, is turned away by all three operations before any registry
    call: they report the invalid name, or false, and the world is the one
    they were given. *)
Theorem separators_never_reach_registry (ucd : UnicodeData) (n : pystr) (c : N) (w : World) :
  In c n -> c < 128 -> c <> LF -> spec_name_char c = false ->
  block_executable ucd n w = (Ret (false, MsgInvalidName n), w) /\
  unblock_executable ucd n w = (Ret (false, MsgInvalidName n), w) /\
  is_blocked ucd n w = (Ret false, w).
Proof.
  intros Hin Hc Hlf Hout.
  assert (Hv : _validate_exe_name ucd n = false).
  { apply not_true_is_false. intros Hv.
    apply validate_exe_name_spec in Hv as [body [sfx [nl [-> [_ [Hb [Hs Hnl]]]]]]].
    apply in_app_or in Hin as [Hin | Hin]; [|apply in_app_or in Hin as [Hin | Hin]].
    - eapply forallb_forall in Hb; eauto.
      rewrite name_char_ascii in Hb by exact Hc. congruence.
    - apply exe_suffix_chars in Hs. rewrite Forall_forall in Hs.
      apply list_elem_of_In in Hin. apply Hs in Hin. congruence.
    - destruct Hnl as [-> | ->]; [destruct Hin|].
      destruct Hin as [<- | []]. apply Hlf. reflexivity. }
  unfold block_executable, unblock_executable, is_blocked. rewrite Hv.
  repeat split.
Qed.

(** The hypotheses of X7 at a name that climbs out of the IFEO key. *)
Lemma separators_never_reach_registry_witness :
  In 92 (cp "..\evil.exe") /\
  block_executable ucd_russian (cp "..\evil.exe") w_admin =
    (Ret (false, MsgInvalidName (cp "..\evil.exe")), w_admin).
Proof.
  assert (Hin : In 92 (cp "..\evil.exe")) by (vm_compute; auto).
  split; [exact Hin|].
  refine (proj1 (separators_never_reach_registry ucd_russian (cp "..\evil.exe") 92 w_admin
                   Hin _ _ eq_refl)).
  - reflexivity.
  - discriminate.
Defined.

(** ** The access mask *)

(** X8: [_get_registry_access] changes nothing.  The mask it returns always
    carries the right to query values; it carries the rights to set values,
    to create subkeys and to delete exactly when [write] is true; and it
    carries the 64-bit view flag exactly when [sys.maxsize] exceeds 2^32, for
    reading as for writing, and never the 32-bit view flag. *)
Theorem get_registry_access_bits (write : bool) (w : World) :
  exists access,
    _get_registry_access write w = (Ret access, w) /\
    Z.testbit access 0 = true /\
    Z.testbit access 1 = write /\
    Z.testbit access 2 = write /\
    Z.testbit access 16 = write /\
    Z.testbit access 8 = (sys_maxsize w >? 2 ^ 32)%Z /\
    Z.testbit access 9 = false.
Proof.
  unfold _get_registry_access.
  destruct write; destruct (sys_maxsize w >? 2 ^ 32)%Z; eexists;
    (split; [reflexivity|]); repeat split.
Qed.

(** ** More about the classifier *)

Lemma ascii_lower_ascii_inv (c : N) : ascii_lower c < 128 -> c < 128.
Proof.
  unfold ascii_lower. destruct (is_ascii_upper c) eqn:Hu; [|auto].
  unfold is_ascii_upper in Hu. cmp_prop. lia.
Qed.

Lemma indicators_ascii (indicator : pystr) :
  In indicator YANDEX_INDICATORS -> Forall (fun c => c < 128) indicator.
Proof.
  intros [<- | [<- | [<- | []]]]; apply Forall_forall; intros c Hc;
    apply list_elem_of_In in Hc; vm_compute in Hc;
    repeat (destruct Hc as [<- | Hc]; [reflexivity|]); destruct Hc.
Qed.

(** X9: a process whose resolved path has an indicator in it, written in any
    mixture of capital and small letters, is matched, whatever its declared
    name and its arguments are, missing ones included. *)
Theorem path_indicator_any_case (ucd : UnicodeData) (h : ProcessHandle)
    (indicator pre u post : pystr) :
  In indicator YANDEX_INDICATORS ->
  map ascii_lower u = indicator ->
  ph_exe h = Some (pre ++ u ++ post) ->
  _is_yandex_browser ucd (proc_info_of h) = Ret true.
Proof.
  intros Hin Hu Hexe. rewrite is_yandex_browser_run.
  replace (any_indicator_in YANDEX_INDICATORS (str_lower ucd (exe_of h))) with true;
    [reflexivity|].
  symmetry. apply any_indicator_in_has_indicator.
  exists indicator, (str_lower ucd pre), (str_lower ucd post). split; [exact Hin|].
  unfold exe_of. rewrite Hexe. cbn [default from_option id].
  rewrite !str_lower_app. f_equal. f_equal.
  rewrite str_lower_ascii; [exact Hu|].
  apply indicators_ascii in Hin. subst indicator.
  apply Forall_forall. intros c Hc. rewrite Forall_forall in Hin.
  apply ascii_lower_ascii_inv. apply Hin.
  apply list_elem_of_In. apply in_map. apply list_elem_of_In. exact Hc.
Qed.

(** The hypotheses of X9 at a path under [YandexBrowser], for a process that
    reported neither a name nor arguments. *)
Lemma path_indicator_any_case_witness :
  _is_yandex_browser ucd_russian (proc_info_of yandex_by_path) = Ret true.
Proof.
  apply (path_indicator_any_case ucd_russian yandex_by_path
           (cp "yandexbrowser") (cp "C:\Users\u\AppData\Local\Yandex\")
           (cp "YandexBrowser") (cp "\Application\browser.exe")).
  - right. right. left. reflexivity.
  - reflexivity.
  - reflexivity.
Defined.

(** X10: the third indicator never decides: a string has one of the three
    indicators in it exactly when it has [yandex] or [yabrowser] in it. *)
Theorem third_indicator_redundant (s : pystr) :
  any_indicator_in YANDEX_INDICATORS s =
    str_contains (cp "yandex") s || str_contains (cp "yabrowser") s.
Proof.
  unfold YANDEX_INDICATORS. cbn [any_indicator_in].
  destruct (str_contains (cp "yandex") s) eqn:H1; [reflexivity|].
  destruct (str_contains (cp "yabrowser") s) eqn:H2; [reflexivity|].
  destruct (str_contains (cp "yandexbrowser") s) eqn:H3; [|reflexivity].
  apply str_contains_spec in H3 as [pre [post E]].
  assert (H : str_contains (cp "yandex") s = true).
  { apply str_contains_spec. exists pre, (cp "browser" ++ post).
    rewrite E. change (cp "yandexbrowser") with (cp "yandex" ++ cp "browser").
    rewrite <- !app_assoc. reflexivity. }
  congruence.
Qed.

(** ** Killing *)

Lemma kill_loop_spec (ucd : UnicodeData) (procs : list Process) :
  forall killed requests,
  kill_loop ucd procs killed requests =
    (killed ++
       map (fun p => dict_get_default (proc_info p) "name" (PyStr (cp "Unknown")))
         (List.filter (fun p => matched ucd p && kill_succeeds p) procs),
     requests ++
       map (fun p => ByHandle (proc_pid p)) (List.filter (matched ucd) procs)).
Proof.
  induction procs as [|p rest IH]; intros killed requests.
  - cbn. rewrite !app_nil_r. reflexivity.
  - cbn [kill_loop List.filter].
    assert (Hm : matched ucd p =
                 match _is_yandex_browser ucd (proc_info p) with
                 | Ret true => true
                 | _ => false
                 end) by reflexivity.
    assert (Hk : kill_succeeds p =
                 match proc_kill p with Killed => true | _ => false end) by reflexivity.
    rewrite Hm, Hk.
    destruct (_is_yandex_browser ucd (proc_info p)) as [[|]|e]; cbn [andb];
      try apply IH.
    destruct (proc_kill p); cbn [map]; rewrite IH, <- !app_assoc; reflexivity.
Qed.

(** X11: with [psutil] at hand, [kill_all_yandex] asks the system to kill
    exactly the processes the classifier matches, each once, by its own
    handle and in the order of the enumeration -- never a process the
    classifier rejected or failed on, and never by name -- and it returns
    one name for each of those whose kill went through, in the same order.
    With no match it returns the empty list and asks for nothing. *)
Theorem kill_all_yandex_only_matched (ucd : UnicodeData) (os : Os) (procs : list Process) :
  psutil_processes os = Some procs ->
  kill_all_yandex ucd os =
    (map (fun p => dict_get_default (proc_info p) "name" (PyStr (cp "Unknown")))
       (List.filter (fun p => matched ucd p && kill_succeeds p) procs),
     map (fun p => ByHandle (proc_pid p)) (List.filter (matched ucd) procs))
  /\
  (forall request, In request (snd (kill_all_yandex ucd os)) ->
     exists p, In p procs /\ request = ByHandle (proc_pid p) /\
               _is_yandex_browser ucd (proc_info p) = Ret true)
  /\
  ((forall p, In p procs -> _is_yandex_browser ucd (proc_info p) <> Ret true) ->
   kill_all_yandex ucd os = ([], [])).
Proof.
  intros Hos. unfold kill_all_yandex. rewrite Hos, kill_loop_spec. cbn [app snd].
  split; [reflexivity|]. split.
  - intros request Hin. apply in_map_iff in Hin as [p [<- Hp]].
    apply filter_In in Hp as [Hp Hm]. exists p. split; [exact Hp|]. split; [reflexivity|].
    unfold matched in Hm.
    destruct (_is_yandex_browser ucd (proc_info p)) as [[|]|e]; congruence.
  - intros Hnone.
    assert (Hm : forall p, In p procs -> matched ucd p = false).
    { intros p Hp. apply Hnone in Hp. unfold matched.
      destruct (_is_yandex_browser ucd (proc_info p)) as [[|]|e]; congruence. }
    rewrite (filter_none (matched ucd)) by exact Hm.
    rewrite filter_none; [reflexivity|].
    intros p Hp. rewrite Hm by exact Hp. reflexivity.
Qed.

(** The hypothesis of X11 on a system with three processes: a matched one
    that dies, a matched one that may not be touched, and a stranger. *)
Lemma kill_all_yandex_only_matched_witness :
  psutil_processes os_three = Some three_processes /\
  kill_all_yandex ucd_russian os_three =
    ([PyNone], [ByHandle 777; ByHandle 4242]).
Proof.
  assert (H : psutil_processes os_three = Some three_processes) by reflexivity.
  split; [exact H|].
  exact (proj1 (kill_all_yandex_only_matched ucd_russian os_three three_processes H)).
Defined.

(** X12: for the entries of a snapshot, the name [kill_all_yandex] reports
    is the declared name of the process, and [None] when the snapshot has no
    name for it; the default [Unknown] of the lookup is never used, since
    the key [name] is always there. *)
Theorem kill_all_yandex_reports_names (ucd : UnicodeData) (os : Os)
    (entries : list (ProcessHandle * KillOutcome)) :
  psutil_processes os = Some (map (fun e => process_of (fst e) (snd e)) entries) ->
  fst (kill_all_yandex ucd os) =
    map (fun e => py_of_opt PyStr (ph_name (fst e)))
      (List.filter (fun e => matched ucd (process_of (fst e) (snd e)) &&
                             kill_succeeds (process_of (fst e) (snd e))) entries).
Proof.
  intros Hos.
  unfold kill_all_yandex. rewrite Hos, kill_loop_spec. cbn [fst app]. clear Hos.
  induction entries as [|[h k] rest IH]; [reflexivity|].
  cbn [map List.filter fst snd].
  destruct (matched ucd (process_of h k) && kill_succeeds (process_of h k));
    cbn [map]; rewrite IH; [|reflexivity].
  f_equal; destruct (proc_info_fields h) as [Hname _]; exact Hname.
Qed.

(** The hypothesis of X12 on the same three processes. *)
Lemma kill_all_yandex_reports_names_witness :
  fst (kill_all_yandex ucd_russian os_three) = [PyNone].
Proof.
  exact (kill_all_yandex_reports_names ucd_russian os_three
           [(yandex_by_path, Killed); (renderer_process, AccessDenied);
            (opaque_process, Killed)] eq_refl).
Defined.

(** ** The window *)

Lemma first_occurrences_le (seen keys : list pystr) :
  (length (first_occurrences seen keys) <= length keys)%nat.
Proof.
  revert seen. induction keys as [|k rest IH]; intros seen; cbn [first_occurrences length].
  - lia.
  - destruct (bool_decide (k ∈ seen)); cbn [length].
    + specialize (IH seen). lia.
    + specialize (IH (k :: seen)). lia.
Qed.

Lemma first_occurrences_nodup (seen keys : list pystr) :
  NoDup keys -> (forall k, k ∈ keys -> k ∉ seen) ->
  first_occurrences seen keys = keys.
Proof.
  revert seen. induction keys as [|k rest IH]; intros seen Hnd Hseen; [reflexivity|].
  apply NoDup_cons in Hnd as [Hk Hnd]. cbn [first_occurrences].
  rewrite bool_decide_eq_false_2 by (apply Hseen; left).
  f_equal. apply IH; [exact Hnd|].
  intros x Hx Hin. apply elem_of_cons in Hin as [-> | Hin]; [contradiction|].
  eapply Hseen; [right; exact Hx | exact Hin].
Qed.

(** Only a list without repetitions keeps its length. *)
Lemma first_occurrences_full (seen keys : list pystr) :
  length (first_occurrences seen keys) = length keys ->
  NoDup keys /\ (forall k, k ∈ keys -> k ∉ seen).
Proof.
  revert seen. induction keys as [|k rest IH]; intros seen Hlen.
  - split; [constructor|]. intros k Hk. apply elem_of_nil in Hk. destruct Hk.
  - cbn [first_occurrences length] in Hlen.
    destruct (bool_decide (k ∈ seen)) eqn:Hd.
    + pose proof (first_occurrences_le seen rest). lia.
    + apply bool_decide_eq_false in Hd. cbn [length] in Hlen.
      injection Hlen as Hlen. apply IH in Hlen as [Hnd Hseen]. split.
      * apply NoDup_cons. split; [|exact Hnd].
        intros Hk. apply (Hseen k Hk). left.
      * intros x Hx. apply elem_of_cons in Hx as [-> | Hx]; [exact Hd|].
        intros Hin. apply (Hseen x Hx). right. exact Hin.
Qed.

Lemma first_occurrences_subset (seen keys : list pystr) (k : pystr) :
  k ∈ first_occurrences seen keys -> k ∈ keys.
Proof.
  revert seen. induction keys as [|x rest IH]; intros seen Hk; [exact Hk|].
  cbn [first_occurrences] in Hk. destruct (bool_decide (x ∈ seen)).
  - right. eapply IH, Hk.
  - apply elem_of_cons in Hk as [-> | Hk]; [left | right; eapply IH, Hk].
Qed.

(** The items of the status dictionary: every distinct name, where it first
    stands in the list, with the answer of [is_blocked]. *)
Lemma status_items (ucd : UnicodeData) (executables : list pystr) (w : World) :
  dict_items executables
    (fold_left (fun d exe => <[exe := blocked_now ucd w exe]> d) executables ∅)
  = map (fun k => (k, blocked_now ucd w k)) (first_occurrences [] executables).
Proof.
  unfold dict_items. apply map_ext_in. intros k Hk.
  rewrite status_lookup, decide_True; [reflexivity|].
  apply list_elem_of_In in Hk. eapply first_occurrences_subset, Hk.
Qed.

Lemma update_status_run (ucd : UnicodeData) (executables : list pystr) (w : World) :
  _update_status ucd executables w =
    (Ret (show_status
            (map (fun k => (k, blocked_now ucd w k)) (first_occurrences [] executables))
            (Z.of_nat (length executables))), w).
Proof.
  unfold _update_status, bind, get_status. rewrite status_loop_run.
  unfold ret. rewrite status_items. reflexivity.
Qed.

Lemma filter_snd_items (f : pystr -> bool) (keys : list pystr) :
  length (List.filter snd (map (fun k => (k, f k)) keys)) = length (List.filter f keys).
Proof.
  induction keys as [|k rest IH]; [reflexivity|].
  cbn [map List.filter snd]. destruct (f k); cbn [length]; rewrite IH; reflexivity.
Qed.

Lemma filter_length_le {A} (f : A -> bool) (l : list A) :
  (length (List.filter f l) <= length l)%nat.
Proof.
  induction l as [|x l IH]; cbn [List.filter length]; [lia|].
  destruct (f x); cbn [length]; lia.
Qed.


Lemma filter_length_none {A} (f : A -> bool) (l : list A) :
  length (List.filter f l) = 0%nat <-> (forall x, In x l -> f x = false).
Proof.
  induction l as [|x l IH]; cbn [List.filter length].
  - split; [intros _ x [] | reflexivity].
  - destruct (f x) eqn:Hx; cbn [length].
    + split; [discriminate|]. intros H. specialize (H x (or_introl eq_refl)). congruence.
    + rewrite IH. split.
      * intros H y [<- | Hy]; [exact Hx | apply H, Hy].
      * intros H y Hy. apply H. right. exact Hy.
Qed.


(** The default list names no executable twice. *)
Lemma default_list_nodup : NoDup BLOCKED_EXECUTABLES.
Proof.
  unfold BLOCKED_EXECUTABLES.
  repeat (apply NoDup_cons; split;
          [intros H; vm_compute in H;
           repeat (apply elem_of_cons in H as [H | H]; [discriminate H|]);
           apply elem_of_nil in H; exact H|]).
  apply NoDup_nil. exact I.
Defined.

Lemma default_list_valid :
  Forall (fun t => _validate_exe_name ucd_russian t = true) BLOCKED_EXECUTABLES.
Proof. repeat constructor. Defined.



Lemma update_status_none_blocked (ucd : UnicodeData) (targets : list pystr) (w : World) :
  NoDup targets -> targets <> [] ->
  (forall t, In t targets -> blocked_now ucd w t = false) ->
  exists view,
    _update_status ucd targets w = (Ret view, w) /\
    status_var view = NotBlocked /\
    block_button_enabled view = true /\
    unblock_button_enabled view = false.
Proof.
  intros Hnd Hne Hnone. eexists. split; [apply update_status_run|].
  rewrite first_occurrences_nodup
    by (try exact Hnd; intros k _ Hk; apply elem_of_nil in Hk; destruct Hk).
  unfold show_status. rewrite filter_snd_items.
  rewrite (proj2 (filter_length_none (blocked_now ucd w) targets) Hnone).
  destruct targets as [|t rest]; [congruence|]. repeat split.
Qed.


Lemma unblock_all_elevated (ucd : UnicodeData) (targets : list pystr) (w : World) :
  elevated w = true ->
  Forall (fun t => _validate_exe_name ucd t = true) targets ->
  exists w',
    unblock_all ucd targets w = (Ret (true, map MsgUnblocked targets), w') /\
    (forall t, In t targets -> blocked_now ucd w' t = false).
Proof.
  intros He Hv. eexists. split; [apply for_each_unblock_elevated; assumption|].
  intros t Ht. unfold blocked_now.
  rewrite unblocked_after_fold by (left; exact Ht). apply andb_false_r.
Qed.

(** X14: when a name stands twice in the configured list, [_update_status]
    never shows "blocked" and never disables the block button, whatever the
    registry holds: the status dictionary has one entry per distinct name,
    so its true values are fewer than the names of the list. *)
Theorem update_status_with_repetition (ucd : UnicodeData) (targets : list pystr) (w : World) :
  ~ NoDup targets ->
  exists view,
    _update_status ucd targets w = (Ret view, w) /\
    status_var view <> FullyBlocked /\
    block_button_enabled view = true.
Proof.
  intros Hdup. eexists. split; [apply update_status_run|].
  unfold show_status. rewrite filter_snd_items.
  set (f := blocked_now ucd w).
  assert (Hlt : (length (List.filter f (first_occurrences [] targets)) < length targets)%nat).
  { pose proof (filter_length_le f (first_occurrences [] targets)).
    pose proof (first_occurrences_le [] targets).
    destruct (Nat.eq_dec (length (first_occurrences [] targets)) (length targets)) as [E|E];
      [|lia].
    apply first_occurrences_full in E as [Hnd _]. contradiction. }
  destruct (Z.eqb_spec (Z.of_nat (length (List.filter f (first_occurrences [] targets))))
              (Z.of_nat (length targets))) as [E|E]; [lia|].
  destruct (Z.of_nat (length (List.filter f (first_occurrences [] targets))) >? 0)%Z;
    cbn; split; (discriminate || reflexivity).
Qed.

(** The hypothesis of X14 at a list that names [ya.exe] twice. *)
Lemma update_status_with_repetition_witness :
  ~ NoDup [cp "ya.exe"; cp "ya.exe"] /\
  exists view,
    _update_status ucd_russian [cp "ya.exe"; cp "ya.exe"] w_user = (Ret view, w_user) /\
    status_var view <> FullyBlocked /\
    block_button_enabled view = true.
Proof.
  assert (Hdup : ~ NoDup [cp "ya.exe"; cp "ya.exe"]).
  { intros H. apply NoDup_cons in H as [H _]. apply H. left. }
  split; [exact Hdup|].
  exact (update_status_with_repetition ucd_russian [cp "ya.exe"; cp "ya.exe"] w_user Hdup).
Defined.

(** X15: without elevation the two handlers of the window do nothing but
    open one error box: the registry, the kill requests and what the window
    shows stay as they were.  The refusal is theirs, made before
    [kill_all_yandex] and before any registry call. *)
Theorem handlers_refuse_without_admin (ucd : UnicodeData) (targets : list pystr)
    (os : Os) (d : Desktop) :
  elevated (dk_world d) = false ->
  _on_block ucd targets os d =
    (Ret tt, {| dk_world := dk_world d; dk_view := dk_view d;
                dk_dialogs := dk_dialogs d ++ [ErrorNeedsAdminToBlock];
                dk_requests := dk_requests d |}) /\
  _on_unblock ucd targets d =
    (Ret tt, {| dk_world := dk_world d; dk_view := dk_view d;
                dk_dialogs := dk_dialogs d ++ [ErrorNeedsAdminToUnblock];
                dk_requests := dk_requests d |}).
Proof.
  intros He. unfold _on_block, _on_unblock, is_admin. rewrite He. split; reflexivity.
Qed.

(** The hypothesis of X15 on the machine where [ya.exe] is blocked and the
    caller is not elevated. *)
Lemma handlers_refuse_without_admin_witness :
  elevated (dk_world (desktop_over w_user_blocked)) = false /\
  dk_world (snd (_on_unblock ucd_russian BLOCKED_EXECUTABLES (desktop_over w_user_blocked)))
    = w_user_blocked.
Proof.
  split; [reflexivity|].
  rewrite (proj2 (handlers_refuse_without_admin ucd_russian BLOCKED_EXECUTABLES os_three
                    (desktop_over w_user_blocked) eq_refl)).
  reflexivity.
Defined.



(** X17: for an elevated caller and a configured list of names the
    validator accepts, not empty and without repetitions, the unblock
    handler returns without asking for any kill; afterwards [is_blocked] is
    false for every name of the list, the window shows "not blocked" with
    the unblock button disabled and the block button enabled, and one
    information box reports an "unblocked" message per name. *)
Theorem on_unblock_unblocks_and_shows (ucd : UnicodeData) (targets : list pystr) (d : Desktop) :
  elevated (dk_world d) = true ->
  Forall (fun t => _validate_exe_name ucd t = true) targets ->
  NoDup targets -> targets <> [] ->
  exists d',
    _on_unblock ucd targets d = (Ret tt, d') /\
    (forall t, In t targets -> is_blocked ucd t (dk_world d') = (Ret false, dk_world d')) /\
    status_var (dk_view d') = NotBlocked /\
    block_button_enabled (dk_view d') = true /\
    unblock_button_enabled (dk_view d') = false /\
    dk_dialogs d' = dk_dialogs d ++ [InfoUnblocked (map MsgUnblocked targets)] /\
    dk_requests d' = dk_requests d.
Proof.
  intros He Hv Hnd Hne.
  destruct (unblock_all_elevated ucd targets (dk_world d) He Hv) as [w1 [Hrun Hall]].
  destruct (update_status_none_blocked ucd targets w1 Hnd Hne Hall)
    as [view [Hview [Hst [Hblock Hunblock]]]].
  unfold _on_unblock, is_admin. rewrite He. cbn [negb].
  rewrite Hrun, Hview.
  eexists. split; [reflexivity|].
  cbn [dk_world dk_view dk_dialogs dk_requests].
  split; [|auto 6].
  intros t Ht. rewrite is_blocked_now, Hall by exact Ht. reflexivity.
Qed.

(** The hypotheses of X17 at the default list on the elevated machine. *)
Lemma on_unblock_unblocks_and_shows_witness :
  exists d',
    _on_unblock ucd_russian BLOCKED_EXECUTABLES (desktop_over w_admin) = (Ret tt, d') /\
    status_var (dk_view d') = NotBlocked /\
    unblock_button_enabled (dk_view d') = false.
Proof.
  destruct (on_unblock_unblocks_and_shows ucd_russian BLOCKED_EXECUTABLES
              (desktop_over w_admin) eq_refl default_list_valid default_list_nodup
              ltac:(discriminate))
    as [d' [Hrun [_ [Hst [_ [Hu _]]]]]].
  exists d'. auto.
Defined.

(** ** Killing without psutil *)

Lemma taskkill_loop_spec (run : pystr -> Outcome Z) (names : list pystr) :
  forall killed requests,
  taskkill_loop run names killed requests =
    (killed ++ map PyStr (List.filter (taskkill_succeeds run) names),
     requests ++ map ByName names).
Proof.
  induction names as [|n rest IH]; intros killed requests.
  - cbn. rewrite !app_nil_r. reflexivity.
  - cbn [taskkill_loop List.filter map]. unfold taskkill_succeeds at 1.
    destruct (run n) as [returncode|e].
    + destruct (returncode =? 0)%Z; rewrite IH, <- !app_assoc; reflexivity.
    + rewrite IH, <- !app_assoc. reflexivity.
Qed.

(** X18: when [psutil] cannot be imported, [kill_all_yandex] consults
    neither the classifier nor the list of running processes: it runs
    [taskkill /F /IM] once for each of the five default names, in their
    order, whatever the outcome of the earlier ones, and returns the names
    for which [taskkill] ran and gave the return code 0. *)
Theorem kill_all_yandex_without_psutil (ucd : UnicodeData) (os : Os) :
  psutil_processes os = None ->
  kill_all_yandex ucd os =
    (map PyStr (List.filter (taskkill_succeeds (taskkill os)) BLOCKED_EXECUTABLES),
     map ByName BLOCKED_EXECUTABLES).
Proof.
  intros Hos. unfold kill_all_yandex, _kill_with_taskkill.
  rewrite Hos, taskkill_loop_spec. reflexivity.
Qed.

(** The hypothesis of X18 on the system without [psutil]: five requests,
    one name returned. *)
Lemma kill_all_yandex_without_psutil_witness :
  psutil_processes os_without_psutil = None /\
  kill_all_yandex ucd_russian os_without_psutil =
    ([PyStr (cp "browser.exe")],
     [ByName (cp "browser.exe"); ByName (cp "yandex.exe");
      ByName (cp "YandexBrowser.exe"); ByName (cp "yandexbrowser.exe");
      ByName (cp "ya.exe")]).
Proof.
  split; [reflexivity|].
  rewrite (kill_all_yandex_without_psutil ucd_russian os_without_psutil eq_refl).
  reflexivity.
Defined.

(** ** A batch with names the validator rejects *)

Lemma for_each_block_mixed (ucd : UnicodeData) (executables : list pystr) :
  forall all_success messages w, elevated w = true ->
  exists flag messages',
    for_each (block_executable ucd) executables all_success messages w =
      (Ret (flag, messages'),
       fold_left (fun w t => if _validate_exe_name ucd t then with_marker t w else w)
         executables w).
Proof.
  induction executables as [|exe rest IH]; intros all_success messages w He.
  - do 2 eexists. reflexivity.
  - cbn [for_each fold_left]. unfold bind at 1.
    destruct (_validate_exe_name ucd exe) eqn:Hv.
    + rewrite block_executable_run, He by exact Hv. cbn [fst snd].
      apply IH. exact He.
    + unfold block_executable. rewrite Hv. cbn [negb]. unfold ret at 1. cbn [fst snd].
      apply IH. exact He.
Qed.

Lemma blocked_after_mixed_fold (ucd : UnicodeData) (targets : list pystr) (t : pystr)
    (w : World) :
  elevated w = true ->
  (In t targets /\ _validate_exe_name ucd t = true) \/ marker_active t w = true ->
  marker_active t
    (fold_left (fun w t => if _validate_exe_name ucd t then with_marker t w else w)
       targets w) = true.
Proof.
  revert w. induction targets as [|x rest IH]; intros w He H; cbn [fold_left].
  - destruct H as [[[] _] | H]. exact H.
  - destruct (_validate_exe_name ucd x) eqn:Hx.
    + apply IH; [exact He|]. destruct H as [[[-> | Hin] Hv] | H].
      * right. apply marker_active_with_marker, He.
      * left. split; assumption.
      * right. apply marker_stays_active, H.
    + apply IH; [exact He|]. destruct H as [[[-> | Hin] Hv] | H].
      * congruence.
      * left. split; assumption.
      * right. exact H.
Qed.

(** X19: a name the validator rejects does not stop a batch.  After
    [block_all] by an elevated caller, whatever the list holds, [is_blocked]
    is true for every name of the list the validator accepts and false for
    every name of the list it rejects; and every name that was blocked
    before, in the list or not, is blocked still. *)
Theorem block_all_passes_invalid_names (ucd : UnicodeData) (targets : list pystr) (w : World) :
  elevated w = true ->
  exists flag messages w',
    block_all ucd targets w = (Ret (flag, messages), w') /\
    (forall t, In t targets ->
       is_blocked ucd t w' = (Ret (_validate_exe_name ucd t), w')) /\
    (forall t, is_blocked ucd t w = (Ret true, w) ->
       is_blocked ucd t w' = (Ret true, w')).
Proof.
  intros He.
  destruct (for_each_block_mixed ucd targets true [] w He) as [flag [messages Hrun]].
  do 3 eexists. split; [exact Hrun|]. split.
  - intros t Ht. rewrite is_blocked_now. unfold blocked_now.
    destruct (_validate_exe_name ucd t) eqn:Hv; [|reflexivity].
    rewrite blocked_after_mixed_fold by auto. reflexivity.
  - intros t Hb. rewrite is_blocked_now in Hb. rewrite is_blocked_now.
    injection Hb as Hb. unfold blocked_now in *.
    apply andb_true_iff in Hb as [Hv Hm]. rewrite Hv.
    rewrite blocked_after_mixed_fold by auto. reflexivity.
Qed.

(** The hypothesis of X19 on the elevated machine, for a list with a path in
    the middle of it: the two names around it are blocked. *)
Lemma block_all_passes_invalid_names_witness :
  elevated w_admin = true /\
  exists flag messages w',
    block_all ucd_russian [cp "ya.exe"; cp "..\evil.exe"; cp "browser.exe"] w_admin =
      (Ret (flag, messages), w') /\
    is_blocked ucd_russian (cp "browser.exe") w' = (Ret true, w').
Proof.
  split; [reflexivity|].
  destruct (block_all_passes_invalid_names ucd_russian
              [cp "ya.exe"; cp "..\evil.exe"; cp "browser.exe"] w_admin eq_refl)
    as [flag [messages [w' [Hrun [Hin _]]]]].
  exists flag, messages, w'. split; [exact Hrun|].
  exact (Hin (cp "browser.exe") (or_intror (or_intror (or_introl eq_refl)))).
Defined.
